(** * Composer VSCode plugin: the validation server and the diagram flow

    A shallow embedding of [server/src/server.ts] (the translation of
    validation exceptions into diagnostics and the dispatch of document
    changes) and of [handleGenerateUml] in [client/src/extension.ts],
    with the properties the specification states about them. *)

From Stdlib Require Import ZArith List String Ascii Bool Lia.
From Stdlib Require Decimal DecimalString DecimalPos DecimalN.
Import DecimalString.
Import ListNotations.

Local Open Scope string_scope.
Local Open Scope Z_scope.

(* ===================================================================== *)
(** ** JavaScript primitives used by the server *)
(* ===================================================================== *)

(** Strings are sequences of code units; the model keeps the code units
    below 256, one [ascii] each.  Numbers are the doubles the server
    computes with: [NaN], the two infinities, and the integers among the
    finite doubles, [Num z] standing for the double whose value is [z].
    The results of the arithmetic are rounded to the nearest double, ties
    to even, as the source's are. *)
Module JS.

Inductive number : Type :=
| NaN
| Num (z : Z)
| Infinity (negative : bool).

(** [Number.MAX_VALUE], the largest finite double, is the integer
    [2^1024 - 2^971]. *)
Definition MAX_VALUE : number := Num (2 ^ 1024 - 2 ^ 971).

(** The double nearest to the integer [z]: [z] itself below [2^53] in
    absolute value; beyond, [z] cut to 53 significant bits, the bits cut
    off rounding it to the nearest such value and a tie to the one whose
    last bit is 0; an infinity when that reaches [2^1024]. *)
Definition roundInteger (z : Z) : number :=
  let a := Z.abs z in
  if a <? 2 ^ 53 then Num z
  else
    let e := Z.log2 a - 52 in
    let q := a / 2 ^ e in
    let r := a mod 2 ^ e in
    let half := 2 ^ (e - 1) in
    let q' := if (half <? r) || ((half =? r) && Z.odd q) then q + 1 else q in
    let m := q' * 2 ^ e in
    if 2 ^ 1024 <=? m then Infinity (z <? 0) else Num (Z.sgn z * m).

(** [a - b] *)
Definition sub (a b : number) : number :=
  match a, b with
  | Num x, Num y => roundInteger (x - y)
  | Infinity n, Num _ => Infinity n
  | Num _, Infinity n => Infinity (negb n)
  | Infinity n, Infinity n' => if Bool.eqb n n' then NaN else Infinity n
  | _, _ => NaN
  end.

(** [isNaN(a)] *)
Definition isNaN (a : number) : bool :=
  match a with
  | NaN => true
  | _ => false
  end.

(** [a < b]; a comparison with [NaN] is false. *)
Definition lt (a b : number) : bool :=
  match a, b with
  | Num x, Num y => x <? y
  | Infinity n, Num _ => n
  | Num _, Infinity n => negb n
  | Infinity n, Infinity n' => n && negb n'
  | _, _ => false
  end.

(** [s.length] *)
Definition length (s : string) : Z := Z.of_nat (String.length s).

(** Does [s] start with [pat]? *)
Fixpoint startsWith (pat s : string) : bool :=
  match pat with
  | EmptyString => true
  | String a pat' =>
      match s with
      | EmptyString => false
      | String b s' => Ascii.eqb a b && startsWith pat' s'
      end
  end.

(** [s.lastIndexOf(pat)]: the greatest index at which [pat] occurs in
    [s], or [-1]. *)
Fixpoint lastIndexOf (pat s : string) : Z :=
  match s with
  | EmptyString => if startsWith pat EmptyString then 0 else -1
  | String _ s' =>
      let later := lastIndexOf pat s' in
      if 0 <=? later then later + 1
      else if startsWith pat s then 0
      else -1
  end.

(** [s.substr(start, len)] with both arguments given. *)
Definition substr2 (s : string) (start len : Z) : string :=
  let size := length s in
  let from := if start <? 0 then Z.max (size + start) 0 else Z.min start size in
  let count := Z.min (Z.max len 0) (size - from) in
  String.substring (Z.to_nat from) (Z.to_nat count) s.

(** [s.substr(start)]: up to the end of [s]. *)
Definition substr (s : string) (start : Z) : string :=
  substr2 s start (length s).

(** The [StrWhiteSpaceChar] code units below 256: TAB, LF, VT, FF, CR,
    SP and NBSP. *)
Definition isWhiteSpace (c : ascii) : bool :=
  let n := N_of_ascii c in
  ((9 <=? n) && (n <=? 13) || (n =? 32) || (n =? 160))%N.

(** The value of a radix-10 digit. *)
Definition digitValue (c : ascii) : option Z :=
  let n := Z.of_N (N_of_ascii c) in
  if (48 <=? n) && (n <=? 57) then Some (n - 48) else None.

Fixpoint skipWhiteSpace (s : string) : string :=
  match s with
  | String c s' => if isWhiteSpace c then skipWhiteSpace s' else s
  | EmptyString => s
  end.

(** Reads the longest run of digits at the head of [s]; [acc] is the value
    read so far and [seen] tells whether a digit was read. *)
Fixpoint readDigits (s : string) (acc : Z) (seen : bool) : option Z :=
  match s with
  | String c s' =>
      match digitValue c with
      | Some d => readDigits s' (10 * acc + d) true
      | None => if seen then Some acc else None
      end
  | EmptyString => if seen then Some acc else None
  end.

(** [parseInt(s, 10)]: leading white space is skipped, one sign is
    accepted, then the longest run of decimal digits is read; no digit
    gives [NaN], and the integer read is rounded to the nearest double,
    as Node's engine does for every length of the run. *)
Definition parseInt (s : string) : number :=
  let s1 := skipWhiteSpace s in
  let '(sign, s2) :=
    match s1 with
    | String "-" r => (-1, r)
    | String "+" r => (1, r)
    | _ => (1, s1)
    end in
  match readDigits s2 0 false with
  | Some v => roundInteger (sign * v)
  | None => NaN
  end.

End JS.

Import JS.

(* ===================================================================== *)
(** ** Data model of the server *)
(* ===================================================================== *)

(** A position of a file location of the modelling library, 1-based. *)
Record FilePosition : Type := {
  line : Z;
  column : Z
}.

(** What [getFileLocation()] returns when it returns a location:
    [{start: {line, column}, end: {line, column}}]. *)
Record FileLocation : Type := {
  loc_start : FilePosition;
  loc_end : FilePosition
}.

(** A thrown validation error, as the library throws them: an object with
    a name and a message, both strings.  [getFileLocation] is [None] when
    [typeof err.getFileLocation] is not ["function"]; otherwise it holds
    the result of the call: [None] for a falsy location, else a location
    with its four coordinates. *)
Record JsError : Type := {
  name : string;
  message : string;
  getFileLocation : option (option FileLocation)
}.

(** Protocol types of [vscode-languageserver]. *)
Record Position : Type := {
  pos_line : number;
  character : number
}.

Record Range : Type := {
  range_start : Position;
  range_end : Position
}.

Inductive DiagnosticSeverity : Type :=
| Error
| Warning
| Information
| Hint.

Record Diagnostic : Type := {
  severity : DiagnosticSeverity;
  range : Range;
  code : string;
  diag_message : string;
  source : string
}.

Record PublishDiagnosticsParams : Type := {
  params_uri : string;
  diagnostics : list Diagnostic
}.

(** A document of the text document manager.  [getText] is [None] for a
    null text, which the guard of [validateTextDocument] provides for. *)
Record TextDocument : Type := {
  uri : string;
  languageId : string;
  getText : option string;
  lineCount : Z
}.

(* ===================================================================== *)
(** ** The translation of an exception into a diagnostic *)
(* ===================================================================== *)

(** The text the server searches and shows: [err.name + ": " + err.message]. *)
Definition fullMsg (err : JsError) : string :=
  name err ++ ": " ++ message err.

(** The locals of [buildAndSendDiagnosticFromException] at the point where
    the diagnostic is built. *)
Record Located : Type := {
  curLine : number;
  curColumn : number;
  endLine : number;
  endColumn : number;
  finalMsg : string
}.

(** Lines 164-201 of [server.ts]: the defaults, then the structured
    location if the error has the accessor, else the text after the last
    [". Line "] of the full message. *)
Definition locate (err : JsError) (lineCount : number) : Located :=
  let default :=
    {| curLine := Num 0; curColumn := Num 0;
       endLine := lineCount; endColumn := MAX_VALUE;
       finalMsg := fullMsg err |} in
  match getFileLocation err with
  | Some (Some location) =>
      {| curLine := sub (Num (line (loc_start location))) (Num 1);
         curColumn := sub (Num (column (loc_start location))) (Num 1);
         endLine := sub (Num (line (loc_end location))) (Num 1);
         endColumn := sub (Num (column (loc_end location))) (Num 1);
         finalMsg := fullMsg err |}
  | Some None => default
  | None =>
      let index := lastIndexOf ". Line " (fullMsg err) in
      if negb (index =? -1) then
        let finalMsg' := substr2 (fullMsg err) 0 (index + 1) in
        let current := substr (fullMsg err) (index + 7) in
        let curLine0 := sub (parseInt current) (Num 1) in
        let curLine' := if isNaN curLine0 || lt curLine0 (Num 0) then Num 0 else curLine0 in
        let index' := lastIndexOf " column " current in
        let current' := substr current (index' + 8) in
        let curColumn0 := sub (parseInt current') (Num 1) in
        let curColumn' := if isNaN curColumn0 || lt curColumn0 (Num 0) then Num 0 else curColumn0 in
        {| curLine := curLine'; curColumn := curColumn';
           endLine := curLine'; endColumn := curColumn';
           finalMsg := finalMsg' |}
      else default
  end.

(** Lines 204-213: the one diagnostic pushed on the list. *)
Definition buildDiagnostic (err : JsError) (lineCount : number) : Diagnostic :=
  let l := locate err lineCount in
  {| severity := Error;
     range := {| range_start := {| pos_line := curLine l; character := curColumn l |};
                 range_end := {| pos_line := endLine l; character := endColumn l |} |};
     code := name err;
     diag_message := finalMsg l;
     source := "Composer" |}.

(* ===================================================================== *)
(** ** The modelling library *)
(* ===================================================================== *)

(** An [AclFile] object of the library, as the server sees it: its
    identifier, the parsed rules (opaque), and the [lineCount] property the
    server stores on it.  The server assigns [lineCount] before it hands the
    object to the manager and never after, so the tracked file is the value
    handed over; a read of [lineCount] happens only on the tracked file. *)
Record AclFile (Body : Type) : Type := {
  getIdentifier : string;
  body : Body;
  acl_lineCount : number
}.

Arguments getIdentifier {Body} _.
Arguments body {Body} _.
Arguments acl_lineCount {Body} _.

(** [aclFile.lineCount = n] *)
Definition set_lineCount {Body : Type} (f : AclFile Body) (n : number) : AclFile Body :=
  {| getIdentifier := getIdentifier f; body := body f; acl_lineCount := n |}.

(** The operations of [composer-common] the server calls.  The library is
    not part of the repository: its behaviour is a parameter.  A call
    either returns or throws a [JsError].

    - [addModelFile mm txt]: the model manager after the call, and the
      exception if one was thrown;
    - [createAclFile mm uri txt]: the new [AclFile], or the exception;
    - [setAclFile mm tracked f]: the file the manager tracks after the
      call, and the exception if one was thrown;
    - [validate mm f]: the exception [f.validate()] throws, if any. *)
Record Library : Type := {
  ModelManager : Type;
  AclBody : Type;
  addModelFile : ModelManager -> option string -> ModelManager * option JsError;
  createAclFile : ModelManager -> string -> option string -> JsError + AclFile AclBody;
  setAclFile : ModelManager -> option (AclFile AclBody) -> AclFile AclBody ->
               option (AclFile AclBody) * option JsError;
  validate : ModelManager -> AclFile AclBody -> option JsError
}.

(** Modelled from the spec: the contract of [AclManager.setAclFile], which
    is library code.  The manager holds at most one [AclFile]; a call that
    returns has made its argument the tracked file, whatever was tracked
    before. *)
Definition setAclFile_replaces (L : Library) : Prop :=
  forall mm old f tracked,
    setAclFile L mm old f = (tracked, None) -> tracked = Some f.

(* ===================================================================== *)
(** ** The server *)
(* ===================================================================== *)

Section Server.

Context (L : Library).

Definition File : Type := AclFile (AclBody L).

(** What the server does to its collaborators, in the order it does it. *)
Inductive Event : Type :=
| CallAddModelFile (txt : option string)
| CallCreateAclFile (uri : string) (txt : option string)
| CallSetAclFile (f : File)
| CallValidate (f : File)
| SendDiagnostics (p : PublishDiagnosticsParams).

(** The two singleton managers, and the calls made so far (latest
    last). *)
Record Server : Type := {
  modelManager : ModelManager L;
  aclManager : option File;
  trace : list Event
}.

Definition log (e : Event) (s : Server) : Server :=
  {| modelManager := modelManager s;
     aclManager := aclManager s;
     trace := trace s ++ [e] |}.

(** A computation of the server changes the state and returns a value or
    throws; the state changes made before a throw stay. *)
Definition M (A : Type) : Type := Server -> Server * (JsError + A).

Definition ret {A : Type} (a : A) : M A := fun s => (s, inr a).

Definition bind {A B : Type} (m : M A) (k : A -> M B) : M B :=
  fun s =>
    match m s with
    | (s', inr a) => k a s'
    | (s', inl e) => (s', inl e)
    end.

(** [try { body } catch (err) { handler }] *)
Definition try_catch {A : Type} (body : M A) (handler : JsError -> M A) : M A :=
  fun s =>
    match body s with
    | (s', inr a) => (s', inr a)
    | (s', inl err) => handler err s'
    end.

Notation "x <- m ;; k" := (bind m (fun x => k))
  (at level 61, m at next level, right associativity).
Notation "m ;; k" := (bind m (fun _ => k))
  (at level 61, right associativity).

(** [modelManager.addModelFile(txt)] *)
Definition modelManager_addModelFile (txt : option string) : M unit :=
  fun s =>
    let s1 := log (CallAddModelFile txt) s in
    let '(mm, thrown) := addModelFile L (modelManager s1) txt in
    ({| modelManager := mm; aclManager := aclManager s1; trace := trace s1 |},
     match thrown with
     | Some err => inl err
     | None => inr tt
     end).

(** [aclManager.createAclFile(uri, txt)] *)
Definition aclManager_createAclFile (uri : string) (txt : option string) : M File :=
  fun s =>
    let s1 := log (CallCreateAclFile uri txt) s in
    (s1, createAclFile L (modelManager s1) uri txt).

(** [aclManager.setAclFile(aclFile)] *)
Definition aclManager_setAclFile (aclFile : File) : M unit :=
  fun s =>
    let s1 := log (CallSetAclFile aclFile) s in
    let '(tracked, thrown) := setAclFile L (modelManager s1) (aclManager s1) aclFile in
    ({| modelManager := modelManager s1; aclManager := tracked; trace := trace s1 |},
     match thrown with
     | Some err => inl err
     | None => inr tt
     end).

(** [aclManager.getAclFile()] *)
Definition aclManager_getAclFile : M (option File) :=
  fun s => (s, inr (aclManager s)).

(** [aclFile.validate()] *)
Definition aclFile_validate (aclFile : File) : M unit :=
  fun s =>
    let s1 := log (CallValidate aclFile) s in
    (s1, match validate L (modelManager s1) aclFile with
         | Some err => inl err
         | None => inr tt
         end).

(** [connection.sendDiagnostics(params)] *)
Definition connection_sendDiagnostics (p : PublishDiagnosticsParams) : M unit :=
  fun s => (log (SendDiagnostics p) s, inr tt).

(** Lines 162-220. *)
Definition buildAndSendDiagnosticFromException
    (err : JsError) (lineCount : number) (sourceURI : string) : M unit :=
  let diagnostics := ([] ++ [buildDiagnostic err lineCount])%list in
  connection_sendDiagnostics {| params_uri := sourceURI; diagnostics := diagnostics |}.

(** Lines 228-234. *)
Definition sendDiagnosticSuccess (sourceURI : string) : M unit :=
  let diagnostics := [] in
  connection_sendDiagnostics {| params_uri := sourceURI; diagnostics := diagnostics |}.

(** Lines 113-121. *)
Definition validateCtoModelFile (textDocument : TextDocument) : M unit :=
  try_catch
    (let txt := getText textDocument in
     modelManager_addModelFile txt ;;
     sendDiagnosticSuccess (uri textDocument))
    (fun err =>
       buildAndSendDiagnosticFromException
         err (Num (lineCount textDocument)) (uri textDocument)).

(** Lines 128-138. *)
Definition validateNewAclModelFile (textDocument : TextDocument) : M unit :=
  try_catch
    (let txt := getText textDocument in
     aclFile <- aclManager_createAclFile (uri textDocument) txt ;;
     let aclFile := set_lineCount aclFile (Num (lineCount textDocument)) in
     aclManager_setAclFile aclFile ;;
     sendDiagnosticSuccess (uri textDocument))
    (fun err =>
       buildAndSendDiagnosticFromException
         err (Num (lineCount textDocument)) (uri textDocument)).

(** Lines 146-153. *)
Definition validateExistingAclModelFile (aclFile : File) : M unit :=
  try_catch
    (aclFile_validate aclFile ;;
     sendDiagnosticSuccess (getIdentifier aclFile))
    (fun err =>
       buildAndSendDiagnosticFromException
         err (acl_lineCount aclFile) (getIdentifier aclFile)).

(** [txt != null && txt.length > 0] *)
Definition hasData (txt : option string) : bool :=
  match txt with
  | Some t => 0 <? JS.length t
  | None => false
  end.

(** Lines 83-106. *)
Definition validateTextDocument (textDocument : TextDocument) : M unit :=
  let langId := languageId textDocument in
  let txt := getText textDocument in
  if hasData txt then
    if String.eqb langId "composer-acl" then
      validateNewAclModelFile textDocument
    else
      validateCtoModelFile textDocument ;;
      aclFile <- aclManager_getAclFile ;;
      match aclFile with
      | Some f => validateExistingAclModelFile f
      | None => ret tt
      end
  else ret tt.

End Server.

Arguments CallAddModelFile {L} _.
Arguments CallCreateAclFile {L} _ _.
Arguments CallSetAclFile {L} _.
Arguments CallValidate {L} _.
Arguments SendDiagnostics {L} _.
Arguments modelManager {L} _.
Arguments aclManager {L} _.
Arguments trace {L} _.

(* ===================================================================== *)
(** ** The client: the diagram flow of [extension.ts] *)
(* ===================================================================== *)

Module Client.

Inductive ConfigValue : Type :=
| CBool (b : bool)
| CString (s : string).

(** An editor of the window: the URI of its document (as a string) and
    its view column, which may be undefined. *)
Record TextEditor : Type := {
  editor_uri : string;
  viewColumn : option Z
}.

(** The calls of the flow to the editor, the file system and the console,
    in the order they are made.  Every editor call is awaited before the
    next statement runs. *)
Inductive Event : Type :=
| ShowErrorMessage (msg : string)
| ConfigUpdate (key : string) (value : ConfigValue)
| WriteFileSync (fileName content : string)
| OpenTextDocument (uri : string)
| ShowTextDocument (uri : string) (column : option Z)
| EditReplace (endLine endCharacter : Z) (text : string)
| ConsoleLog (msg : string)
| Save
| ExecuteCommand (command : string).

(** What the editor answers during one run of the flow. *)
Record Window : Type := {
  (** [window.activeTextEditor] on entry *)
  activeTextEditor : option TextEditor;
  (** truthiness of [composer.UML.keepSourceFileOpen] *)
  keepSourceFileOpen : bool;
  (** truthiness of [composer.UML.autoShowDiagam] *)
  autoShowDiagamSetting : bool;
  (** [extensions.getExtension('jebbs.plantuml')] is truthy *)
  plantumlInstalled : bool;
  (** [plantuml.previewFileType] *)
  previewFileType : string;
  (** truthiness of [plantuml.previewAutoUpdate] *)
  previewAutoUpdate : bool;
  (** [os.tmpdir()] and [path.sep] *)
  tmpdir : string;
  sep : string;
  (** [Uri.file(f).toString()] *)
  uriToString : string -> string;
  (** [fs.existsSync(fileName)] *)
  existsSync : bool;
  (** [document.lineCount] and the length of the last line of the
      temporary document when the edit runs *)
  documentLineCount : Z;
  lastLineLength : Z;
  (** what [textEditor.edit] resolves to *)
  editApplied : bool;
  (** what [document.save()] resolves to *)
  saved : bool;
  (** [commands.executeCommand('plantuml.preview')]: [Some ex] when it
      throws, [ex] being the exception as a string *)
  previewThrows : option string;
  (** [window.activeTextEditor] after the preview *)
  activeTextEditorAfter : option TextEditor;
  visibleTextEditors : list TextEditor;
  (** the URIs of [workspace.textDocuments] *)
  textDocuments : list string
}.

(** [ViewColumn.One] *)
Definition ViewColumn_One : Z := 1.

(** [s.endsWith(suffix)] *)
Definition endsWith (s suffix : string) : bool :=
  let n := String.length s in
  let m := String.length suffix in
  (m <=? n)%nat && String.eqb (String.substring (n - m) m s) suffix.

(** [!originatingFileName || originatingFileName.length === 0] *)
Definition noName (originatingFileName : option string) : bool :=
  match originatingFileName with
  | None => true
  | Some n => JS.length n =? 0
  end.

(** [e === originatingFileName] for a string [e] *)
Definition sameName (e : string) (originatingFileName : option string) : bool :=
  match originatingFileName with
  | Some n => String.eqb e n
  | None => false
  end.

Section Flow.

Context (w : Window).

(** Lines 110-125: the originating file name and the target view
    column after looking at the active editor. *)
Definition resolveOrigin (originatingFileName : option string)
  : option string * option Z :=
  match activeTextEditor w with
  | Some currentEditor =>
      let activeUri := editor_uri currentEditor in
      let originatingFileName :=
        if noName originatingFileName then
          if endsWith activeUri ".cto" then Some activeUri else originatingFileName
        else originatingFileName in
      let targetViewColumn :=
        if sameName activeUri originatingFileName
        then viewColumn currentEditor else None in
      (originatingFileName, targetViewColumn)
  | None => (originatingFileName, None)
  end.

(** Lines 134-170: the previewer check; returns the calls made and the
    value of [autoShowDiagam] afterwards. *)
Definition checkPreviewer : list Event * bool :=
  if autoShowDiagamSetting w then
    if negb (plantumlInstalled w) then
      ([ShowErrorMessage
          "The 'jebbs.plantuml' extention must be installed and configured to view the UML diagram."],
       false)
    else if previewAutoUpdate w || negb (String.eqb (previewFileType w) "svg") then
      ([ConfigUpdate "plantuml.previewAutoUpdate" (CBool false);
        ConfigUpdate "plantuml.previewFileType" (CString "svg")],
       true)
    else ([], true)
  else ([], false).

Definition fileName : string := tmpdir w ++ sep w ++ "composer.puml".

Definition umlDocUri : string := uriToString w fileName.

(** Lines 222-240: closing the temporary editor, or moving the cursor. *)
Definition closeOrCursorTop : list Event :=
  if negb (keepSourceFileOpen w) then
    match activeTextEditorAfter w with
    | Some active =>
        if String.eqb (editor_uri active) umlDocUri then
          [ExecuteCommand "workbench.action.closeActiveEditor"]
        else
          [ConsoleLog ("CLIENT: could not close ActiveTextEditor: wrong URI: "
                       ++ editor_uri active ++ " : " ++ umlDocUri)]
    | None => []
    end
  else [ExecuteCommand "cursorTop"].

(** Lines 244-265: giving the focus back to the originating document. *)
Definition refocus (autoShowDiagam : bool) (originatingFileName : option string)
    (targetViewColumn : option Z) : list Event :=
  if autoShowDiagam then
    match find (fun editor => sameName (editor_uri editor) originatingFileName)
               (visibleTextEditors w) with
    | Some editor => [ShowTextDocument (editor_uri editor) (viewColumn editor)]
    | None =>
        match find (fun editor => sameName editor originatingFileName)
                   (textDocuments w) with
        | Some editor => [ShowTextDocument editor targetViewColumn]
        | None => []
        end
    end
  else [].

(** Lines 195-271: the continuation of the edit. *)
Definition afterEdit (autoShowDiagam : bool) (originatingFileName : option string)
    (targetViewColumn : option Z) (editApplied : bool) : list Event :=
  if negb editApplied then
    [ConsoleLog "Client could not apply edit"]
  else
    [Save]
    ++ (if negb (saved w) then [ConsoleLog ("Client could not save doc: " ++ umlDocUri)]
        else [])
    ++ (if autoShowDiagam then
          match previewThrows w with
          | Some ex =>
              [ExecuteCommand "plantuml.preview";
               ConsoleLog ("CLIENT error: " ++ ex);
               ShowErrorMessage ex]
          | None =>
              [ExecuteCommand "plantuml.preview"]
              ++ closeOrCursorTop
              ++ refocus autoShowDiagam originatingFileName targetViewColumn
          end
        else
          closeOrCursorTop
          ++ refocus autoShowDiagam originatingFileName targetViewColumn).

(** Lines 173-194: the temporary file is created if absent, opened,
    shown, and its content replaced. *)
Definition openAndEdit (docContent : string) : list Event :=
  (if negb (existsSync w) then [WriteFileSync fileName ""] else [])
  ++ [OpenTextDocument umlDocUri;
      ShowTextDocument umlDocUri (Some ViewColumn_One);
      EditReplace (documentLineCount w - 1) (lastLineLength w) docContent].

(** Lines 107-272. *)
Definition handleGenerateUml (docContent : string)
    (originatingFileName : option string) : list Event :=
  let '(originatingFileName, targetViewColumn) := resolveOrigin originatingFileName in
  let '(calls, autoShowDiagam) := checkPreviewer in
  (calls
   ++ openAndEdit docContent
   ++ afterEdit autoShowDiagam originatingFileName targetViewColumn (editApplied w))%list.

End Flow.

(** The steps that follow the edit: save, preview, closing the temporary
    editor (or the cursor move that replaces it), refocusing. *)
Definition isLaterStep (e : Event) : bool :=
  match e with
  | Save => true
  | ExecuteCommand _ => true
  | ShowTextDocument _ _ => true
  | _ => false
  end.

End Client.

(* ===================================================================== *)
(** ** Vocabulary of the properties *)
(* ===================================================================== *)

(** [s] contains [pat]. *)
Definition occurs (pat s : string) : Prop :=
  exists pre post, s = pre ++ pat ++ post.

(** [s] is [pre ++ pat ++ post] and [pat] occurs nowhere further right in
    [s]. *)
Definition lastOccurrence (pat s pre post : string) : Prop :=
  s = pre ++ pat ++ post /\
  forall pre' post', s = pre' ++ pat ++ post' ->
    (String.length pre' <= String.length pre)%nat.

Definition isDigit (c : ascii) : bool :=
  match digitValue c with
  | Some _ => true
  | None => false
  end.

(** The head of [s] is a decimal digit. *)
Definition startsWithDigit (s : string) : bool :=
  match s with
  | String c _ => isDigit c
  | EmptyString => false
  end.

(** Every character of [s] is a decimal digit. *)
Fixpoint allDigits (s : string) : bool :=
  match s with
  | String c s' => isDigit c && allDigits s'
  | EmptyString => true
  end.

(** The decimal notation of a natural number. *)
Definition decimal (n : Z) : string :=
  NilEmpty.string_of_uint (N.to_uint (Z.to_N n)).

(** The 0-based coordinate the fallback path reads from a text: the
    integer at its head minus one, and 0 when that is [NaN] or negative. *)
Definition zeroBased (text : string) : number :=
  let v := sub (parseInt text) (Num 1) in
  if isNaN v || lt v (Num 0) then Num 0 else v.

(** The text the fallback path reads the column from, given the text that
    follows [". Line "]. *)
Definition columnText (current : string) : string :=
  substr current (lastIndexOf " column " current + 8).

(** The single point [(l, c)-(l, c)]. *)
Definition point (l c : number) : Range :=
  {| range_start := {| pos_line := l; character := c |};
     range_end := {| pos_line := l; character := c |} |}.

(** The range that covers the whole document. *)
Definition wholeDocument (lineCount : number) : Range :=
  {| range_start := {| pos_line := Num 0; character := Num 0 |};
     range_end := {| pos_line := lineCount; character := MAX_VALUE |} |}.

(** [buildAndSendDiagnosticFromException] returns, and what it did is one
    publication, for [sourceURI], of the list that holds [d] alone. *)
Definition emits (L : Library) (err : JsError) (lineCount : number)
    (sourceURI : string) (s : Server L) (d : Diagnostic) : Prop :=
  buildAndSendDiagnosticFromException L err lineCount sourceURI s =
  (log L (SendDiagnostics {| params_uri := sourceURI; diagnostics := [d] |}) s, inr tt).

(** The publications of a trace, in order. *)
Fixpoint published {L : Library} (t : list (Event L)) : list PublishDiagnosticsParams :=
  match t with
  | SendDiagnostics p :: t' => p :: published t'
  | _ :: t' => published t'
  | [] => []
  end.

(** What one validation attempt must have done between the states [s] and
    [s']: it returned [r] without throwing, and after its calls to the
    library, none of which publishes, it published once, for [uri]: the
    empty list when nothing was [thrown], else the one diagnostic of the
    exception. *)
Definition publishesOnce {L : Library} (s s' : Server L) (r : JsError + unit)
    (uri : string) (thrown : option JsError) (lineCount : number) : Prop :=
  r = inr tt /\
  exists calls,
    published calls = [] /\
    trace s' =
      (trace s ++ calls ++
       [SendDiagnostics
          {| params_uri := uri;
             diagnostics :=
               match thrown with
               | Some err => [buildDiagnostic err lineCount]
               | None => []
               end |}])%list.

(** The exception a new ACL file meets, if any: in [createAclFile], or in
    [setAclFile] called on the file with its line count recorded. *)
Definition newAclThrown (L : Library) (s : Server L) (textDocument : TextDocument)
  : option JsError :=
  match createAclFile L (modelManager s) (uri textDocument) (getText textDocument) with
  | inl err => Some err
  | inr f =>
      snd (setAclFile L (modelManager s) (aclManager s)
             (set_lineCount f (Num (lineCount textDocument))))
  end.

(** A library for the examples: the model manager holds the texts added so
    far and rejects a text it already holds; an ACL text parses when it
    starts with ["rule "], and is its own parsed form; a file is valid when
    the model manager holds a model; a file is tracked only once it has
    validated. *)
Module Toy.

Definition duplicate : JsError :=
  {| name := "IllegalModelException";
     message := "Duplicate model file";
     getFileLocation := Some None |}.

Definition parseError : JsError :=
  {| name := "ParseException";
     message := "Expected rule. Line 1 column 1";
     getFileLocation :=
       Some (Some {| loc_start := {| line := 1; column := 1 |};
                     loc_end := {| line := 1; column := 2 |} |}) |}.

Definition noModel : JsError :=
  {| name := "Error";
     message := "No model to check the rules against";
     getFileLocation := None |}.

Definition addModel (mm : list string) (txt : option string)
  : list string * option JsError :=
  match txt with
  | Some t => if existsb (String.eqb t) mm then (mm, Some duplicate)
              else (t :: mm, None)
  | None => (mm, Some duplicate)
  end.

Definition createAcl (mm : list string) (uri : string) (txt : option string)
  : JsError + AclFile string :=
  match txt with
  | Some t =>
      if startsWith "rule " t
      then inr {| getIdentifier := uri; body := t; acl_lineCount := NaN |}
      else inl parseError
  | None => inl parseError
  end.

Definition validateAcl (mm : list string) (f : AclFile string) : option JsError :=
  match mm with
  | [] => Some noModel
  | _ => None
  end.

Definition setAcl (mm : list string) (tracked : option (AclFile string))
    (f : AclFile string) : option (AclFile string) * option JsError :=
  match validateAcl mm f with
  | Some err => (tracked, Some err)
  | None => (Some f, None)
  end.

Definition library : Library :=
  {| ModelManager := list string;
     AclBody := string;
     addModelFile := addModel;
     createAclFile := createAcl;
     setAclFile := setAcl;
     validate := validateAcl |}.

(** The server on start: no model, no ACL file, nothing sent. *)
Definition initial : Server library :=
  Build_Server library [] None [].

End Toy.

(** Inputs for the examples. *)
Module Samples.

(** An error of the library with a structured location. *)
Definition located : JsError :=
  {| name := "ParseException";
     message := "Expected a declaration";
     getFileLocation :=
       Some (Some {| loc_start := {| line := 3; column := 5 |};
                     loc_end := {| line := 4; column := 9 |} |}) |}.

(** An error whose only location is in its text. *)
Definition fooError : JsError :=
  {| name := "Error";
     message := "Foo error. Line 5 column 3";
     getFileLocation := None |}.

(** An error whose text mentions two places. *)
Definition twoPlaces : JsError :=
  {| name := "Error";
     message := "Foo. Line 5 column 3 in a file included. Line 9 column 1";
     getFileLocation := None |}.

(** An error whose numbers do not parse. *)
Definition unreadable : JsError :=
  {| name := "Error";
     message := "Bad. Line x column y";
     getFileLocation := None |}.

(** An error whose text gives the line but not [" column "]. *)
Definition noColumn : JsError :=
  {| name := "Error";
     message := "Bad. Line 12 col 5";
     getFileLocation := None |}.

(** An error whose name, not its message, contains [". Line "]. *)
Definition oddName : JsError :=
  {| name := "E. Line 7";
     message := "boom";
     getFileLocation := None |}.

Definition modelUri : string := "file:///models/org.acme.cto".
Definition aclUri : string := "file:///permissions.acl".

Definition model : TextDocument :=
  {| uri := modelUri; languageId := "composer";
     getText := Some "namespace org.acme"; lineCount := 1 |}.

Definition emptyModel : TextDocument :=
  {| uri := modelUri; languageId := "composer";
     getText := Some ""; lineCount := 1 |}.

Definition goodAcl : TextDocument :=
  {| uri := aclUri; languageId := "composer-acl";
     getText := Some "rule Everyone { }"; lineCount := 12 |}.

Definition badAcl : TextDocument :=
  {| uri := aclUri; languageId := "composer-acl";
     getText := Some "garbage"; lineCount := 2 |}.

(** The ACL file tracked since an earlier validation, 7 lines long. *)
Definition oldAcl : File Toy.library :=
  {| getIdentifier := aclUri; body := "rule Old { }"; acl_lineCount := Num 7 |}.

(** The file made from [goodAcl], before and after its line count is
    recorded. *)
Definition freshAcl : File Toy.library :=
  {| getIdentifier := aclUri; body := "rule Everyone { }"; acl_lineCount := NaN |}.

Definition newAcl : File Toy.library :=
  {| getIdentifier := aclUri; body := "rule Everyone { }"; acl_lineCount := Num 12 |}.

(** A server that holds one model and tracks [oldAcl]. *)
Definition tracking : Server Toy.library :=
  Build_Server Toy.library ["namespace org.base"] (Some oldAcl) [].

(** An editor window in which the edit of the temporary file fails. *)
Definition editFails : Client.Window :=
  {| Client.activeTextEditor :=
       Some {| Client.editor_uri := modelUri; Client.viewColumn := Some 2 |};
     Client.keepSourceFileOpen := false;
     Client.autoShowDiagamSetting := true;
     Client.plantumlInstalled := true;
     Client.previewFileType := "png";
     Client.previewAutoUpdate := true;
     Client.tmpdir := "/tmp";
     Client.sep := "/";
     Client.uriToString := fun f => "file://" ++ f;
     Client.existsSync := false;
     Client.documentLineCount := 1;
     Client.lastLineLength := 0;
     Client.editApplied := false;
     Client.saved := true;
     Client.previewThrows := None;
     Client.activeTextEditorAfter :=
       Some {| Client.editor_uri := "file:///tmp/composer.puml";
               Client.viewColumn := Some 1 |};
     Client.visibleTextEditors :=
       [{| Client.editor_uri := modelUri; Client.viewColumn := Some 2 |}];
     Client.textDocuments := [modelUri] |}.

End Samples.

(* ===================================================================== *)
(** ** The notification handlers of the server *)
(* ===================================================================== *)

(** [a || d] where [a] is a number or is missing: [d] unless [a] is a
    number other than 0 and [NaN]. *)
Definition orElse (a : option number) (d : number) : number :=
  match a with
  | Some (Num z) => if z =? 0 then d else Num z
  | Some (Infinity n) => Infinity n
  | Some NaN => d
  | None => d
  end.

(** The settings a configuration change carries, as far as the server
    reads them: the [composer] section may be missing, and so may
    [maxNumberOfProblems] in it. *)
Record ExampleSettings : Type := {
  setting_maxNumberOfProblems : option number
}.

Record Settings : Type := {
  composer : option ExampleSettings
}.

(** The error of reading [property] of an undefined value, as Node 8 words
    it. *)
Definition TypeError (property : string) : JsError :=
  {| name := "TypeError";
     message := "Cannot read property '" ++ property ++ "' of undefined";
     getFileLocation := None |}.

Section Handlers.

Context (L : Library).

(** [docs.forEach(callback)]: the documents in order; a throw of the
    callback ends the loop. *)
Fixpoint forEach (docs : list TextDocument) (callback : TextDocument -> M L unit)
  : M L unit :=
  match docs with
  | [] => ret L tt
  | d :: rest => bind L (callback d) (fun _ => forEach rest callback)
  end.

(** The server process: the managers and the connection, and the global
    [maxNumberOfProblems], undefined until the first configuration. *)
Record Process : Type := {
  server : Server L;
  maxNumberOfProblems : option number
}.

(** The notifications the server has handlers for that reach the managers:
    a content change of a document, and a configuration change, which
    carries [change.settings] ([None] when undefined) and meets the
    documents [documents.all()] holds. *)
Inductive Notification : Type :=
| DidChangeContent (document : TextDocument)
| DidChangeConfiguration (settings : option Settings) (all : list TextDocument).

(** Lines 53-55. *)
Definition onDidChangeContent (document : TextDocument) (p : Process)
  : Process * (JsError + unit) :=
  let '(s, r) := validateTextDocument L document (server p) in
  ({| server := s; maxNumberOfProblems := maxNumberOfProblems p |}, r).

(** Lines 72-77.  Reading [settings.composer.maxNumberOfProblems] throws
    when [settings] or its [composer] section is undefined, before
    anything else is done. *)
Definition onDidChangeConfiguration (settings : option Settings)
    (all : list TextDocument) (p : Process) : Process * (JsError + unit) :=
  match settings with
  | None => (p, inl (TypeError "composer"))
  | Some settings =>
      match composer settings with
      | None => (p, inl (TypeError "maxNumberOfProblems"))
      | Some section =>
          let maxNumberOfProblems :=
            orElse (setting_maxNumberOfProblems section) (Num 10) in
          let '(s, r) := forEach all (validateTextDocument L) (server p) in
          ({| server := s; maxNumberOfProblems := Some maxNumberOfProblems |}, r)
      end
  end.

Definition handle (n : Notification) (p : Process) : Process * (JsError + unit) :=
  match n with
  | DidChangeContent document => onDidChangeContent document p
  | DidChangeConfiguration settings all => onDidChangeConfiguration settings all p
  end.

(** The notifications are handled one at a time, in arrival order.  What
    follows a throw of a handler is the connection's business, not this
    code's: the run returns the throw. *)
Fixpoint serve (ns : list Notification) (p : Process) : Process * (JsError + unit) :=
  match ns with
  | [] => (p, inr tt)
  | n :: rest =>
      match handle n p with
      | (p', inr _) => serve rest p'
      | (p', inl e) => (p', inl e)
      end
  end.

(** How many documents a run of notifications submits to validation. *)
Fixpoint submitted (ns : list Notification) : nat :=
  match ns with
  | [] => 0
  | DidChangeContent _ :: rest => S (submitted rest)
  | DidChangeConfiguration _ all :: rest => List.length all + submitted rest
  end.

End Handlers.

Arguments server {L} _.
Arguments maxNumberOfProblems {L} _.

(** The notification is a content change, or a configuration change that
    carries the [composer] section. *)
Definition hasComposer (n : Notification) : bool :=
  match n with
  | DidChangeContent _ => true
  | DidChangeConfiguration (Some settings) _ =>
      match composer settings with
      | Some _ => true
      | None => false
      end
  | DidChangeConfiguration None _ => false
  end.

(** The number is not [NaN] and not below 0. *)
Definition notNegative (n : number) : Prop :=
  match n with
  | NaN => False
  | Num z => 0 <= z
  | Infinity negative => negative = false
  end.

(** A coordinate of a file location: 1-based, and not above [2^53], so
    that the coordinate and the coordinate minus 1 are both doubles. *)
Definition coordinate (z : Z) : Prop := 1 <= z <= 2 ^ 53.

Definition coordinates (location : FileLocation) : Prop :=
  coordinate (line (loc_start location)) /\
  coordinate (column (loc_start location)) /\
  coordinate (line (loc_end location)) /\
  coordinate (column (loc_end location)).

(** A publication holds no more than one diagnostic. *)
Definition atMostOne (p : PublishDiagnosticsParams) : Prop :=
  (List.length (diagnostics p) <= 1)%nat.

(** The event is a call to the model manager or to [validate]. *)
Definition touchesModel {L : Library} (e : Event L) : bool :=
  match e with
  | CallAddModelFile _ => true
  | CallValidate _ => true
  | _ => false
  end.

(* ===================================================================== *)
(** ** Code completion *)
(* ===================================================================== *)

Module Completion.

Inductive CompletionItemKind : Type :=
| Text.

(** A completion item.  [data] is [None] when the item carries no number
    there; [detail] and [documentation] are [None] while undefined. *)
Record CompletionItem : Type := {
  label : string;
  kind : option CompletionItemKind;
  data : option number;
  detail : option string;
  documentation : option string
}.

Definition item (l : string) (d : Z) : CompletionItem :=
  {| label := l; kind := Some Text; data := Some (Num d);
     detail := None; documentation := None |}.

(** Lines 243-269: the list does not depend on the position. *)
Definition onCompletion : list CompletionItem :=
  [item "asset" 1; item "participant" 2; item "transaction" 3; item "enum" 4].

(** [item.data === n] *)
Definition dataIs (i : CompletionItem) (n : Z) : bool :=
  match data i with
  | Some (Num z) => z =? n
  | _ => false
  end.

Definition describe (i : CompletionItem) (d doc : string) : CompletionItem :=
  {| label := label i; kind := kind i; data := data i;
     detail := Some d; documentation := Some doc |}.

(** Lines 273-288. *)
Definition onCompletionResolve (i : CompletionItem) : CompletionItem :=
  if dataIs i 1 then describe i "asset details" "Add an asset."
  else if dataIs i 2 then describe i "participant details" "Add an participant"
  else if dataIs i 3 then describe i "transaction details" "Add an transaction"
  else if dataIs i 4 then describe i "enum details" "Add an enum"
  else i.

End Completion.

(* ===================================================================== *)
(** ** The client: forcing an update when the active editor changes *)
(* ===================================================================== *)

Module Activation.

(** [clientOptions.documentSelector] *)
Definition documentSelector : list string :=
  ["composer"; "composer-acl"; "composer-qry"].

(** The document of an editor: its language and the parameters
    [asChangeTextDocumentParams] makes of it (opaque). *)
Record EditorDocument (Params : Type) : Type := {
  doc_languageId : string;
  asChangeTextDocumentParams : Params
}.

Arguments doc_languageId {Params} _.
Arguments asChangeTextDocumentParams {Params} _.

(** [client.sendNotification(new NotificationType(method), params)] *)
Record Sent (Params : Type) : Type := {
  method : string;
  params : Params
}.

Arguments method {Params} _.
Arguments params {Params} _.

(** Lines 68-86 of [extension.ts]: the notifications the handler of
    [onDidChangeActiveTextEditor] sends; [editor] is [None] when there is
    no active editor. *)
Definition onDidChangeActiveTextEditor {Params : Type}
    (editor : option (EditorDocument Params)) : list (Sent Params) :=
  match editor with
  | None => []
  | Some document =>
      if negb (String.eqb (doc_languageId document) "composer")
         && negb (String.eqb (doc_languageId document) "composer-acl")
         && negb (String.eqb (doc_languageId document) "composer-qry")
      then []
      else [{| method := "textDocument/didChange";
               params := asChangeTextDocumentParams document |}]
  end.

End Activation.

(* ===================================================================== *)
(** ** Further vocabulary and inputs *)
(* ===================================================================== *)

(** The notation of an integer: a minus sign for a negative one, then the
    decimal notation of its absolute value. *)
Definition signedDecimal (z : Z) : string :=
  if z <? 0 then "-" ++ decimal (- z) else decimal z.

(** No character of [s] is [p]. *)
Fixpoint without (p : ascii) (s : string) : bool :=
  match s with
  | String c s' => negb (Ascii.eqb p c) && without p s'
  | EmptyString => true
  end.

(** A library for the examples in which ACL rules depend on the model: a
    file is valid unless the model manager holds the text
    ["namespace org.broken"]. *)
Module Picky.

Definition brokenRule : JsError :=
  {| name := "IllegalModelException";
     message := "Rule refers to a type that does not exist";
     getFileLocation := Some None |}.

Definition validateAcl (mm : list string) (f : AclFile string) : option JsError :=
  if existsb (String.eqb "namespace org.broken") mm then Some brokenRule else None.

Definition setAcl (mm : list string) (tracked : option (AclFile string))
    (f : AclFile string) : option (AclFile string) * option JsError :=
  match validateAcl mm f with
  | Some err => (tracked, Some err)
  | None => (Some f, None)
  end.

Definition library : Library :=
  {| ModelManager := list string;
     AclBody := string;
     addModelFile := Toy.addModel;
     createAclFile := Toy.createAcl;
     setAclFile := setAcl;
     validate := validateAcl |}.

Definition initial : Server library :=
  Build_Server library [] None [].

End Picky.

Module MoreSamples.

(** A model that breaks the rules of the ACL file. *)
Definition brokenModel : TextDocument :=
  {| uri := "file:///models/org.broken.cto"; languageId := "composer";
     getText := Some "namespace org.broken"; lineCount := 3 |}.

(** An error whose location starts at line [2^53 + 2], a double whose
    predecessor [2^53 + 1] is not a double. *)
Definition farAway : JsError :=
  {| name := "ParseException";
     message := "Expected a declaration";
     getFileLocation :=
       Some (Some {| loc_start := {| line := 2 ^ 53 + 2; column := 1 |};
                     loc_end := {| line := 2 ^ 53 + 2; column := 2 |} |}) |}.

(** [n] zeros. *)
Fixpoint zeros (n : nat) : string :=
  match n with
  | O => ""
  | S n' => String "0" (zeros n')
  end.

(** An error whose text gives a line of 401 digits. *)
Definition tooLong : JsError :=
  {| name := "Error";
     message := "Big. Line 1" ++ zeros 400;
     getFileLocation := None |}.

(** An error whose text gives a line just above [2^53]. *)
Definition rounded : JsError :=
  {| name := "Error";
     message := "Big. Line 9007199254740993 column 1";
     getFileLocation := None |}.

(** Settings with the [composer] section and the given
    [maxNumberOfProblems]. *)
Definition withProblems (n : option number) : option Settings :=
  Some {| composer := Some {| setting_maxNumberOfProblems := n |} |}.


(** An error whose text gives line 0 and a negative column. *)
Definition lineZero : JsError :=
  {| name := "Error";
     message := "Odd. Line 0 column -4";
     getFileLocation := None |}.

(** An error whose text gives the line only. *)
Definition lineOnly : JsError :=
  {| name := "Error";
     message := "Bad. Line 12";
     getFileLocation := None |}.

(** An error with the accessor, no location, and a place in its text. *)
Definition silentAccessor : JsError :=
  {| name := "ParseException";
     message := "Unexpected token. Line 5 column 3";
     getFileLocation := Some None |}.

(** The flow started from the keyboard in the editor of a model: the
    previewer is installed and set up, every step succeeds. *)
Definition shortcut : Client.Window :=
  {| Client.activeTextEditor :=
       Some {| Client.editor_uri := "file:///models/org.acme.cto";
               Client.viewColumn := Some 2 |};
     Client.keepSourceFileOpen := false;
     Client.autoShowDiagamSetting := true;
     Client.plantumlInstalled := true;
     Client.previewFileType := "svg";
     Client.previewAutoUpdate := false;
     Client.tmpdir := "/tmp";
     Client.sep := "/";
     Client.uriToString := fun f => "file://" ++ f;
     Client.existsSync := true;
     Client.documentLineCount := 4;
     Client.lastLineLength := 7;
     Client.editApplied := true;
     Client.saved := true;
     Client.previewThrows := None;
     Client.activeTextEditorAfter :=
       Some {| Client.editor_uri := "file:///tmp/composer.puml";
               Client.viewColumn := Some 1 |};
     Client.visibleTextEditors :=
       [{| Client.editor_uri := "file:///tmp/composer.puml"; Client.viewColumn := Some 1 |};
        {| Client.editor_uri := "file:///models/org.acme.cto"; Client.viewColumn := Some 2 |}];
     Client.textDocuments := ["file:///models/org.acme.cto"] |}.

(** The same, without the previewer extension. *)
Definition noPreviewer : Client.Window :=
  {| Client.activeTextEditor := Client.activeTextEditor shortcut;
     Client.keepSourceFileOpen := false;
     Client.autoShowDiagamSetting := true;
     Client.plantumlInstalled := false;
     Client.previewFileType := "png";
     Client.previewAutoUpdate := true;
     Client.tmpdir := "/tmp";
     Client.sep := "/";
     Client.uriToString := fun f => "file://" ++ f;
     Client.existsSync := true;
     Client.documentLineCount := 4;
     Client.lastLineLength := 7;
     Client.editApplied := true;
     Client.saved := true;
     Client.previewThrows := None;
     Client.activeTextEditorAfter := Client.activeTextEditorAfter shortcut;
     Client.visibleTextEditors := Client.visibleTextEditors shortcut;
     Client.textDocuments := Client.textDocuments shortcut |}.

(** The same as [shortcut], but the save fails and the preview throws. *)
Definition unlucky : Client.Window :=
  {| Client.activeTextEditor := Client.activeTextEditor shortcut;
     Client.keepSourceFileOpen := false;
     Client.autoShowDiagamSetting := true;
     Client.plantumlInstalled := true;
     Client.previewFileType := "png";
     Client.previewAutoUpdate := false;
     Client.tmpdir := "/tmp";
     Client.sep := "/";
     Client.uriToString := fun f => "file://" ++ f;
     Client.existsSync := true;
     Client.documentLineCount := 4;
     Client.lastLineLength := 7;
     Client.editApplied := true;
     Client.saved := false;
     Client.previewThrows := Some "Error: java not found";
     Client.activeTextEditorAfter := Client.activeTextEditorAfter shortcut;
     Client.visibleTextEditors := Client.visibleTextEditors shortcut;
     Client.textDocuments := Client.textDocuments shortcut |}.

End MoreSamples.

(* ===================================================================== *)
(** ** Properties of the string primitives *)
(* ===================================================================== *)

Section StringFacts.

Lemma append_nil_r (s : string) : s ++ "" = s.
Proof. induction s as [|c s IH]; simpl; [reflexivity | now rewrite IH]. Qed.

Lemma append_assoc (a b c : string) : (a ++ b) ++ c = a ++ b ++ c.
Proof. induction a as [|x a IH]; simpl; [reflexivity | now rewrite IH]. Qed.

Lemma length_append (a b : string) :
  String.length (a ++ b) = (String.length a + String.length b)%nat.
Proof. induction a as [|x a IH]; simpl; [reflexivity | now rewrite IH]. Qed.

Lemma startsWith_append (pat post : string) : startsWith pat (pat ++ post) = true.
Proof.
  induction pat as [|a pat IH]; simpl; [reflexivity|].
  now rewrite Ascii.eqb_refl, IH.
Qed.

Lemma startsWith_inv (pat s : string) :
  startsWith pat s = true -> exists post, s = pat ++ post.
Proof.
  revert s; induction pat as [|a pat IH]; intros s H; simpl in *.
  - now exists s.
  - destruct s as [|b s]; [discriminate|].
    apply andb_true_iff in H as [Hab Hs].
    apply Ascii.eqb_eq in Hab; subst b.
    destruct (IH _ Hs) as [post ->]. now exists post.
Qed.

Lemma lastIndexOf_lower (pat s : string) : -1 <= lastIndexOf pat s.
Proof.
  induction s as [|c s IH]; simpl.
  - destruct (startsWith pat ""); lia.
  - destruct (0 <=? lastIndexOf pat s) eqn:E.
    + apply Z.leb_le in E; lia.
    + destruct (startsWith pat (String c s)); lia.
Qed.

(** An index [lastIndexOf] returns is the place of an occurrence. *)
Lemma lastIndexOf_sound (pat s : string) :
  0 <= lastIndexOf pat s ->
  exists pre post, s = pre ++ pat ++ post /\ JS.length pre = lastIndexOf pat s.
Proof.
  induction s as [|c s IH]; simpl.
  - destruct (startsWith pat "") eqn:E; [|lia]. intros _.
    destruct (startsWith_inv _ _ E) as [post Hpost].
    exists "", post. now split.
  - destruct (0 <=? lastIndexOf pat s) eqn:E.
    + intros _. apply Z.leb_le in E.
      destruct (IH E) as (pre & post & -> & Hlen).
      exists (String c pre), post. split; [reflexivity|].
      unfold JS.length in *; simpl String.length. lia.
    + destruct (startsWith pat (String c s)) eqn:E'; [|lia]. intros _.
      destruct (startsWith_inv _ _ E') as [post Hpost].
      exists "", post. now split.
Qed.

(** No occurrence lies to the right of the index [lastIndexOf] returns. *)
Lemma lastIndexOf_greatest (pat pre post : string) :
  JS.length pre <= lastIndexOf pat (pre ++ pat ++ post).
Proof.
  unfold JS.length.
  induction pre as [|c pre IH]; simpl String.length.
  - change ("" ++ pat ++ post) with (pat ++ post).
    destruct (pat ++ post) as [|c s] eqn:E; simpl.
    + destruct pat; [simpl; lia | discriminate].
    + destruct (0 <=? lastIndexOf pat s) eqn:E1.
      * apply Z.leb_le in E1; lia.
      * rewrite <- E, startsWith_append. simpl; lia.
  - change (String c pre ++ pat ++ post) with (String c (pre ++ pat ++ post)).
    simpl lastIndexOf.
    destruct (0 <=? lastIndexOf pat (pre ++ pat ++ post)) eqn:E1.
    + lia.
    + apply Z.leb_gt in E1. lia.
Qed.

Lemma lastIndexOf_absent (pat s : string) :
  lastIndexOf pat s = -1 <-> ~ occurs pat s.
Proof.
  split.
  - intros H (pre & post & ->).
    pose proof (lastIndexOf_greatest pat pre post). unfold JS.length in *. lia.
  - intros H. pose proof (lastIndexOf_lower pat s).
    destruct (Z.eq_dec (lastIndexOf pat s) (-1)) as [|N]; [assumption|].
    exfalso. apply H.
    destruct (lastIndexOf_sound pat s) as (pre & post & -> & _); [lia|].
    now exists pre, post.
Qed.

Lemma lastIndexOf_present (pat s : string) :
  0 <= lastIndexOf pat s <-> occurs pat s.
Proof.
  split.
  - intros H. destruct (lastIndexOf_sound pat s H) as (pre & post & -> & _).
    now exists pre, post.
  - intros H. pose proof (lastIndexOf_lower pat s).
    destruct (Z.eq_dec (lastIndexOf pat s) (-1)) as [E|]; [|lia].
    apply lastIndexOf_absent in E. contradiction.
Qed.

(** [lastIndexOf] finds the last occurrence. *)
Lemma lastIndexOf_lastOccurrence (pat s pre post : string) :
  lastOccurrence pat s pre post -> lastIndexOf pat s = JS.length pre.
Proof.
  intros [-> Hlast].
  pose proof (lastIndexOf_greatest pat pre post) as Hge.
  destruct (lastIndexOf_sound pat (pre ++ pat ++ post)) as (pre' & post' & E & Hlen).
  { unfold JS.length in Hge. lia. }
  specialize (Hlast _ _ E). unfold JS.length in *. lia.
Qed.

(** Conversely the index [lastIndexOf] returns splits [s] at the last
    occurrence. *)
Lemma lastOccurrence_lastIndexOf (pat s : string) :
  0 <= lastIndexOf pat s ->
  exists pre post, lastOccurrence pat s pre post.
Proof.
  intros H. destruct (lastIndexOf_sound pat s H) as (pre & post & E & Hlen).
  exists pre, post. split; [assumption|].
  intros pre' post' E'. subst s.
  pose proof (lastIndexOf_greatest pat pre' post') as Hge.
  rewrite <- E' in Hge. unfold JS.length in *. lia.
Qed.

Lemma substring_all (s : string) : String.substring 0 (String.length s) s = s.
Proof. induction s as [|c s IH]; simpl; [reflexivity | now rewrite IH]. Qed.

Lemma substring_skip (pre s : string) (m : nat) :
  String.substring (String.length pre) m (pre ++ s) = String.substring 0 m s.
Proof. induction pre as [|c pre IH]; simpl; [reflexivity | assumption]. Qed.

Lemma substring_head (pre s : string) :
  String.substring 0 (String.length pre) (pre ++ s) = pre.
Proof.
  induction pre as [|c pre IH]; simpl.
  - now destruct s.
  - now rewrite IH.
Qed.

(** [s.substr(0, n)] where [n] is the length of a prefix of [s]. *)
Lemma substr2_head (pre s : string) :
  substr2 (pre ++ s) 0 (JS.length pre) = pre.
Proof.
  unfold substr2, JS.length. rewrite length_append.
  change (0 <? 0) with false. cbv iota.
  replace (Z.min 0 _) with 0 by lia.
  replace (Z.min _ _) with (Z.of_nat (String.length pre)) by lia.
  rewrite Nat2Z.id. apply substring_head.
Qed.

(** [s.substr(n)] where [n] is the length of a prefix of [s]. *)
Lemma substr_tail (pre s : string) :
  substr (pre ++ s) (JS.length pre) = s.
Proof.
  unfold substr, substr2, JS.length. rewrite length_append.
  destruct (Z.of_nat (String.length pre) <? 0) eqn:E; [apply Z.ltb_lt in E; lia|].
  rewrite Z.min_l by lia. rewrite Z.max_l by lia. rewrite Z.min_r by lia.
  rewrite Nat2Z.id.
  replace (Z.to_nat _) with (String.length s) by lia.
  rewrite substring_skip. apply substring_all.
Qed.

End StringFacts.

(* ===================================================================== *)
(** ** Rounding to the nearest double *)
(* ===================================================================== *)

Section Rounding.

(** Below [2^53] every integer is a double. *)
Lemma roundInteger_exact (z : Z) :
  Z.abs z < 2 ^ 53 -> roundInteger z = Num z.
Proof.
  intros H. unfold roundInteger.
  destruct (Z.ltb_spec (Z.abs z) (2 ^ 53)); [reflexivity | lia].
Qed.

Lemma roundInteger_exact_le (z : Z) :
  Z.abs z <= 2 ^ 53 -> roundInteger z = Num z.
Proof.
  intros H. destruct (Z.eq_dec (Z.abs z) (2 ^ 53)) as [E | N].
  - assert (Hz : z = 2 ^ 53 \/ z = - 2 ^ 53) by lia.
    destruct Hz as [-> | ->]; vm_compute; reflexivity.
  - apply roundInteger_exact. lia.
Qed.

(** The 53 leading bits of an integer that has more are a positive
    number. *)
Lemma leading_bits_positive (a : Z) :
  2 ^ 53 <= a -> 0 <= Z.log2 a - 52 /\ 1 <= a / 2 ^ (Z.log2 a - 52).
Proof.
  intros H.
  assert (Hlog : 53 <= Z.log2 a).
  { apply Z.log2_le_pow2; [|assumption].
    assert (0 < 2 ^ 53) by (apply Z.pow_pos_nonneg; lia). lia. }
  split; [lia|].
  assert (Hpos : 0 < 2 ^ (Z.log2 a - 52)) by (apply Z.pow_pos_nonneg; lia).
  apply Z.div_le_lower_bound; [assumption|].
  rewrite Z.mul_1_r.
  assert (0 < a) by (assert (0 < 2 ^ 53) by (apply Z.pow_pos_nonneg; lia); lia).
  transitivity (2 ^ Z.log2 a).
  - apply Z.pow_le_mono_r; lia.
  - now apply Z.log2_spec.
Qed.

(** What an integer rounds to has its sign. *)
Lemma roundInteger_sign (z : Z) :
  exists m, 0 <= m /\ (z <> 0 -> 0 < m) /\
    (roundInteger z = Num (Z.sgn z * m) \/
     (z <> 0 /\ roundInteger z = Infinity (z <? 0))).
Proof.
  unfold roundInteger.
  destruct (Z.ltb_spec (Z.abs z) (2 ^ 53)) as [Hsmall | Hbig].
  - exists (Z.abs z). split; [lia|]. split; [lia|]. left. f_equal. lia.
  - destruct (leading_bits_positive _ Hbig) as [He Hq].
    cbv zeta.
    set (e := Z.log2 (Z.abs z) - 52) in *.
    set (q := Z.abs z / 2 ^ e) in *.
    set (up := (2 ^ (e - 1) <? Z.abs z mod 2 ^ e)
               || (2 ^ (e - 1) =? Z.abs z mod 2 ^ e) && Z.odd q).
    set (q' := if up then q + 1 else q).
    assert (Hq' : 1 <= q') by (subst q'; destruct up; lia).
    assert (Hpow : 0 < 2 ^ e) by (apply Z.pow_pos_nonneg; lia).
    assert (Hz : z <> 0).
    { assert (0 < 2 ^ 53) by (apply Z.pow_pos_nonneg; lia). lia. }
    exists (q' * 2 ^ e). split; [nia|]. split; [nia|].
    destruct (2 ^ 1024 <=? q' * 2 ^ e); [right; now split | now left].
Qed.

Lemma roundInteger_negative (z : Z) :
  z < 0 -> JS.lt (roundInteger z) (Num 0) = true.
Proof.
  intros Hz. destruct (roundInteger_sign z) as (m & Hm & Hpos & [-> | [_ ->]]).
  - cbn [JS.lt]. apply Z.ltb_lt. assert (0 < m) by (apply Hpos; lia).
    replace (Z.sgn z) with (-1) by lia. lia.
  - cbn [JS.lt]. apply Z.ltb_lt. assumption.
Qed.

Lemma roundInteger_notNegative (z : Z) :
  0 <= z -> notNegative (roundInteger z).
Proof.
  intros Hz. destruct (roundInteger_sign z) as (m & Hm & _ & [-> | [_ ->]]).
  - cbn [notNegative]. assert (0 <= Z.sgn z) by lia. nia.
  - cbn [notNegative]. apply Z.ltb_ge. assumption.
Qed.

End Rounding.

(* ===================================================================== *)
(** ** [parseInt] reads back the decimal notation *)
(* ===================================================================== *)

Section DecimalFacts.

Variable rest : string.
Hypothesis rest_no_digit : startsWithDigit rest = false.

Lemma readDigits_rest (acc : Z) : readDigits rest acc true = Some acc.
Proof.
  destruct rest as [|c r]; [reflexivity|].
  simpl in *. unfold isDigit in rest_no_digit.
  now destruct (digitValue c).
Qed.

Lemma readDigits_acc (d : Decimal.uint) (acc : positive) :
  readDigits (NilEmpty.string_of_uint d ++ rest) (Z.pos acc) true
  = Some (Z.pos (Pos.of_uint_acc d acc)).
Proof.
  revert acc; induction d; intros acc;
    [ apply readDigits_rest
    | cbn [NilEmpty.string_of_uint append Pos.of_uint_acc];
      rewrite <- IHd; cbn [readDigits];
      match goal with
      | |- context [digitValue ?c] =>
          let v := eval vm_compute in (digitValue c) in
          change (digitValue c) with v
      end;
      cbv iota; f_equal; lia .. ].
Qed.

Lemma readDigits_uint (d : Decimal.uint) (seen : bool) :
  d <> Decimal.Nil \/ seen = true ->
  readDigits (NilEmpty.string_of_uint d ++ rest) 0 seen
  = Some (Z.of_N (Pos.of_uint d)).
Proof.
  revert seen; induction d; intros seen H;
    [ destruct H as [H | ->]; [contradiction | apply readDigits_rest]
    | cbn [NilEmpty.string_of_uint append Pos.of_uint];
      apply IHd; now right
    | cbn [NilEmpty.string_of_uint append Pos.of_uint];
      symmetry; etransitivity;
      [ symmetry; apply readDigits_acc | reflexivity ] .. ].
Qed.

Lemma parseInt_uint (d : Decimal.uint) :
  d <> Decimal.Nil ->
  parseInt (NilEmpty.string_of_uint d ++ rest) = roundInteger (Z.of_N (Pos.of_uint d)).
Proof.
  intros H.
  pose proof (readDigits_uint d false (or_introl H)) as R.
  destruct d; [contradiction | ..];
    unfold parseInt; simpl NilEmpty.string_of_uint in *; simpl append in *;
    simpl skipWhiteSpace; cbv iota beta; rewrite R; f_equal; lia.
Qed.

Lemma to_uint_nonnil (n : N) : N.to_uint n <> Decimal.Nil.
Proof.
  destruct n; simpl; [discriminate | apply DecimalPos.Unsigned.to_uint_nonnil].
Qed.

(** [parseInt] of the decimal notation of [n], whatever follows it that
    is not a digit, is the double nearest to [n]: [n] itself below
    [2^53]. *)
Lemma parseInt_decimal (n : Z) :
  0 <= n -> parseInt (decimal n ++ rest) = roundInteger n.
Proof.
  intros Hn. unfold decimal.
  rewrite parseInt_uint by apply to_uint_nonnil.
  change (Pos.of_uint (N.to_uint (Z.to_N n))) with (N.of_uint (N.to_uint (Z.to_N n))).
  rewrite DecimalN.Unsigned.of_to. f_equal. lia.
Qed.

Lemma parseInt_decimal_exact (n : Z) :
  0 <= n < 2 ^ 53 -> parseInt (decimal n ++ rest) = Num n.
Proof.
  intros Hn. rewrite parseInt_decimal by lia. apply roundInteger_exact. lia.
Qed.

End DecimalFacts.

(* ===================================================================== *)
(** ** Where the last occurrence of a pattern is *)
(* ===================================================================== *)

Section Occurrences.

Lemma append_split (a b c d : string) :
  a ++ b = c ++ d -> (String.length a <= String.length c)%nat ->
  exists x, c = a ++ x /\ b = x ++ d.
Proof.
  revert c; induction a as [|u a IH]; intros c E Hlen.
  - exists c. now split.
  - destruct c as [|v c]; [simpl in Hlen; lia|].
    simpl in E. injection E as -> E.
    destruct (IH c E) as (x & -> & ->); [simpl in Hlen; lia|].
    now exists x.
Qed.

(** An occurrence after which the pattern does not occur again, not even
    overlapping it, is the last one. *)
Lemma lastOccurrence_intro (c : ascii) (pat' pre post : string) :
  lastIndexOf (String c pat') (pat' ++ post) = -1 ->
  lastOccurrence (String c pat') (pre ++ String c pat' ++ post) pre post.
Proof.
  intros Habs. split; [reflexivity|].
  intros pre' post' E.
  destruct (Nat.le_gt_cases (String.length pre') (String.length pre)) as [|Hgt];
    [assumption | exfalso].
  destruct (append_split pre _ pre' _ E) as (x & -> & Ex); [lia|].
  destruct x as [|u x]; [rewrite length_append in Hgt; simpl in Hgt; lia|].
  simpl in Ex. injection Ex as _ Ex.
  apply lastIndexOf_absent in Habs. apply Habs.
  now exists x, post'.
Qed.

Lemma lastIndexOf_cons_absent (pat s : string) (c : ascii) :
  lastIndexOf pat s = -1 -> startsWith pat (String c s) = false ->
  lastIndexOf pat (String c s) = -1.
Proof.
  intros H1 H2. cbn [lastIndexOf]. rewrite H1, H2. reflexivity.
Qed.

Lemma lastIndexOf_tail_absent (pat s : string) (c : ascii) :
  lastIndexOf pat (String c s) = -1 -> lastIndexOf pat s = -1.
Proof.
  cbn [lastIndexOf]. pose proof (lastIndexOf_lower pat s).
  destruct (0 <=? lastIndexOf pat s) eqn:E; [apply Z.leb_le in E | apply Z.leb_gt in E]; lia.
Qed.

Lemma lastIndexOf_head_absent (pat s : string) (c : ascii) :
  lastIndexOf pat (String c s) = -1 -> startsWith pat (String c s) = false.
Proof.
  cbn [lastIndexOf].
  destruct (0 <=? lastIndexOf pat s) eqn:E; [apply Z.leb_le in E; lia|].
  destruct (startsWith pat (String c s)); [discriminate | reflexivity].
Qed.

Lemma digit_not (p c : ascii) : isDigit p = false -> isDigit c = true -> Ascii.eqb p c = false.
Proof.
  intros Hp Hc. destruct (Ascii.eqb_spec p c) as [->|]; [congruence | reflexivity].
Qed.

(** Digits cannot start a pattern whose head is not a digit. *)
Lemma lastIndexOf_skip_digits (p : ascii) (pat' ds s : string) :
  isDigit p = false -> allDigits ds = true ->
  lastIndexOf (String p pat') s = -1 ->
  lastIndexOf (String p pat') (ds ++ s) = -1.
Proof.
  intros Hp Hds Hs. induction ds as [|d ds IH]; [assumption|].
  simpl in Hds. apply andb_true_iff in Hds as [Hd Hds].
  change (String d ds ++ s) with (String d (ds ++ s)).
  apply lastIndexOf_cons_absent; [now apply IH|].
  cbn [startsWith]. now rewrite (digit_not p d Hp Hd).
Qed.

Lemma allDigits_uint (d : Decimal.uint) : allDigits (NilEmpty.string_of_uint d) = true.
Proof. induction d; simpl; [reflexivity | assumption ..]. Qed.

(** The decimal notation is a digit followed by digits. *)
Lemma decimal_digits (n : Z) :
  exists d ds, decimal n = String d ds /\ isDigit d = true /\ allDigits ds = true.
Proof.
  unfold decimal.
  pose proof (allDigits_uint (N.to_uint (Z.to_N n))) as H.
  pose proof (to_uint_nonnil (Z.to_N n)) as Hn.
  destruct (NilEmpty.string_of_uint (N.to_uint (Z.to_N n))) as [|d ds] eqn:E.
  - destruct (N.to_uint (Z.to_N n)); [contradiction | discriminate ..].
  - simpl in H. apply andb_true_iff in H as [Hd Hds]. now exists d, ds.
Qed.

Lemma allDigits_decimal (n : Z) : allDigits (decimal n) = true.
Proof. apply allDigits_uint. Qed.

(** A pattern without [":"] that starts [x ++ ":" ++ y] starts [x]. *)
Lemma startsWith_colon (pat x y : string) :
  lastIndexOf ":" pat = -1 ->
  startsWith pat (x ++ String ":" y) = true -> startsWith pat x = true.
Proof.
  revert x; induction pat as [|p pat IH]; intros x Hp H; [reflexivity|].
  pose proof (lastIndexOf_head_absent _ _ _ Hp) as Hhead.
  cbn [startsWith] in Hhead. rewrite andb_true_r in Hhead.
  apply lastIndexOf_tail_absent in Hp.
  destruct x as [|u x]; cbn [append startsWith] in *.
  - apply andb_true_iff in H as [H _]. rewrite Ascii.eqb_sym in H. congruence.
  - apply andb_true_iff in H as [H1 H2]. rewrite H1. now apply IH.
Qed.

End Occurrences.

(* ===================================================================== *)
(** ** The exception-to-diagnostic translation *)
(* ===================================================================== *)

Section Translation.

(** The full message contains [". Line "] exactly when the name or the
    message of the error does: no occurrence straddles the [": "] put
    between them. *)
Lemma fullMsg_absent (err : JsError) :
  ~ occurs ". Line " (name err) -> ~ occurs ". Line " (message err) ->
  ~ occurs ". Line " (fullMsg err).
Proof.
  intros Hn Hm. apply lastIndexOf_absent in Hn, Hm. apply lastIndexOf_absent.
  unfold fullMsg. induction (name err) as [|u a IH].
  - cbn [append].
    repeat (apply lastIndexOf_cons_absent; [|reflexivity]). assumption.
  - change (String u a ++ ": " ++ message err)
      with (String u (a ++ ": " ++ message err)).
    apply lastIndexOf_cons_absent.
    + apply IH. now apply lastIndexOf_tail_absent in Hn.
    + apply lastIndexOf_head_absent in Hn.
      destruct (startsWith ". Line " (String u (a ++ ": " ++ message err))) eqn:E;
        [|reflexivity].
      apply (startsWith_colon ". Line " (String u a) (" " ++ message err)) in E;
        [congruence | reflexivity].
Qed.

Lemma fullMsg_present (err : JsError) :
  occurs ". Line " (name err) \/ occurs ". Line " (message err) ->
  occurs ". Line " (fullMsg err).
Proof.
  unfold fullMsg. intros [(pre & post & ->) | (pre & post & ->)].
  - exists pre, (post ++ ": " ++ message err). now rewrite !append_assoc.
  - exists (name err ++ ": " ++ pre), post. now rewrite !append_assoc.
Qed.

(** The default path: the accessor gave no location, or there is none
    and the full message has no [". Line "]. *)
Lemma locate_default (err : JsError) (lineCount : number) :
  getFileLocation err = Some None \/
  (getFileLocation err = None /\ ~ occurs ". Line " (fullMsg err)) ->
  locate err lineCount =
  {| curLine := Num 0; curColumn := Num 0;
     endLine := lineCount; endColumn := MAX_VALUE;
     finalMsg := fullMsg err |}.
Proof.
  unfold locate. intros [-> | [-> H]]; [reflexivity|].
  apply lastIndexOf_absent in H. now rewrite H.
Qed.

(** The structured path. *)
Lemma locate_structured (err : JsError) (lineCount : number) (location : FileLocation) :
  getFileLocation err = Some (Some location) ->
  locate err lineCount =
  {| curLine := sub (Num (line (loc_start location))) (Num 1);
     curColumn := sub (Num (column (loc_start location))) (Num 1);
     endLine := sub (Num (line (loc_end location))) (Num 1);
     endColumn := sub (Num (column (loc_end location))) (Num 1);
     finalMsg := fullMsg err |}.
Proof. unfold locate. now intros ->. Qed.

(** A coordinate minus 1 is exact. *)
Lemma sub_coordinate (z : Z) : coordinate z -> sub (Num z) (Num 1) = Num (z - 1).
Proof.
  unfold coordinate. intros H. cbn [sub]. apply roundInteger_exact. lia.
Qed.

(** The fallback path: the full message is cut after the period of its
    last [". Line "], and line and column are read from what follows. *)
Lemma locate_fallback (err : JsError) (lineCount : number) (P T : string) :
  getFileLocation err = None ->
  lastOccurrence ". Line " (fullMsg err) P T ->
  locate err lineCount =
  {| curLine := zeroBased T; curColumn := zeroBased (columnText T);
     endLine := zeroBased T; endColumn := zeroBased (columnText T);
     finalMsg := P ++ "." |}.
Proof.
  intros Hacc Hlast. unfold locate. rewrite Hacc.
  rewrite (lastIndexOf_lastOccurrence _ _ _ _ Hlast).
  destruct Hlast as [E _]. rewrite E.
  replace (JS.length P =? -1) with false
    by (symmetry; apply Z.eqb_neq; unfold JS.length; lia).
  cbn [negb].
  assert (H1 : substr2 (P ++ ". Line " ++ T) 0 (JS.length P + 1) = P ++ ".").
  { replace (P ++ ". Line " ++ T) with ((P ++ ".") ++ " Line " ++ T)
      by now rewrite append_assoc.
    replace (JS.length P + 1) with (JS.length (P ++ "."))
      by (unfold JS.length; rewrite length_append; simpl; lia).
    apply substr2_head. }
  assert (H2 : substr (P ++ ". Line " ++ T) (JS.length P + 7) = T).
  { replace (P ++ ". Line " ++ T) with ((P ++ ". Line ") ++ T)
      by now rewrite append_assoc.
    replace (JS.length P + 7) with (JS.length (P ++ ". Line "))
      by (unfold JS.length; rewrite length_append; simpl; lia).
    apply substr_tail. }
  rewrite H1, H2. reflexivity.
Qed.

(** The column is read after the last [" column "] of the line text. *)
Lemma columnText_last (T Q U : string) :
  lastOccurrence " column " T Q U -> columnText T = U.
Proof.
  intros Hlast. unfold columnText.
  rewrite (lastIndexOf_lastOccurrence _ _ _ _ Hlast).
  destruct Hlast as [-> _].
  replace (Q ++ " column " ++ U) with ((Q ++ " column ") ++ U)
    by now rewrite append_assoc.
  replace (JS.length Q + 8) with (JS.length (Q ++ " column "))
    by (unfold JS.length; rewrite length_append; simpl; lia).
  apply substr_tail.
Qed.

Lemma zeroBased_decimal (n : Z) (rest : string) :
  coordinate n -> startsWithDigit rest = false ->
  zeroBased (decimal n ++ rest) = Num (n - 1).
Proof.
  intros Hn Hrest. unfold zeroBased. pose proof Hn as [Hlow Hhigh].
  rewrite (parseInt_decimal rest Hrest) by lia.
  rewrite roundInteger_exact_le by lia.
  rewrite (sub_coordinate n Hn).
  cbn [isNaN lt orb].
  destruct (n - 1 <? 0) eqn:E; [apply Z.ltb_lt in E; lia | reflexivity].
Qed.

Lemma zeroBased_zero (text : string) :
  parseInt text = NaN \/ parseInt text = Infinity true \/
  (exists v, parseInt text = Num v /\ v - 1 < 0) ->
  zeroBased text = Num 0.
Proof.
  unfold zeroBased. intros [-> | [-> | (v & -> & Hv)]]; [reflexivity | reflexivity |].
  cbn [sub]. rewrite (roundInteger_negative _ Hv). now rewrite orb_true_r.
Qed.

(** In ["<P>. Line <n> column <m><R>"] the last [". Line "] is the one
    shown, provided [R] has none. *)
Lemma lastOccurrence_line (P R : string) (n m : Z) :
  ~ occurs ". Line " R ->
  lastOccurrence ". Line "
    (P ++ ". Line " ++ decimal n ++ " column " ++ decimal m ++ R)
    P (decimal n ++ " column " ++ decimal m ++ R).
Proof.
  intros HR. apply lastIndexOf_absent in HR.
  apply lastOccurrence_intro. cbn [append].
  repeat (apply lastIndexOf_cons_absent; [|reflexivity]).
  apply lastIndexOf_skip_digits; [reflexivity | apply allDigits_decimal |].
  cbn [append].
  repeat (apply lastIndexOf_cons_absent; [|reflexivity]).
  apply lastIndexOf_skip_digits; [reflexivity | apply allDigits_decimal | assumption].
Qed.

(** ... and the last [" column "] of what follows is the one shown,
    provided [R] has none. *)
Lemma lastOccurrence_column (R : string) (n m : Z) :
  ~ occurs " column " R ->
  lastOccurrence " column "
    (decimal n ++ " column " ++ decimal m ++ R)
    (decimal n) (decimal m ++ R).
Proof.
  intros HR. apply lastIndexOf_absent in HR.
  apply lastOccurrence_intro. cbn [append].
  destruct (decimal_digits m) as (d & ds & -> & Hd & Hds).
  do 6 (apply lastIndexOf_cons_absent; [|reflexivity]).
  apply lastIndexOf_cons_absent.
  - apply (lastIndexOf_skip_digits " " "column " (String d ds) R);
      [reflexivity | simpl; now rewrite Hd, Hds | assumption].
  - cbn [append startsWith].
    rewrite (digit_not "c" d); [reflexivity | reflexivity | assumption].
Qed.

(** When the name has no [". Line "], every occurrence in the full
    message lies in the message part, after [name ++ ": "]. *)
Lemma occurrence_after_name (nm msg P T : string) :
  lastIndexOf ". Line " nm = -1 ->
  nm ++ ": " ++ msg = P ++ ". Line " ++ T ->
  exists rest, P = nm ++ ": " ++ rest.
Proof.
  revert P; induction nm as [|u a IH]; intros P Habs E.
  - destruct P as [|p0 [|p1 P]]; try discriminate.
    cbn [append] in E. injection E as <- <- _. now exists P.
  - destruct P as [|p0 P].
    + exfalso. apply lastIndexOf_head_absent in Habs.
      assert (Hs : startsWith ". Line " (String u a ++ String ":" (" " ++ msg)) = true).
      { change (String u a ++ String ":" (" " ++ msg))
          with (String u a ++ ": " ++ msg).
        rewrite E. apply (startsWith_append ". Line " T). }
      apply startsWith_colon in Hs; [congruence | reflexivity].
    + cbn [append] in E. injection E as <- E.
      apply lastIndexOf_tail_absent in Habs.
      destruct (IH P Habs E) as (rest & ->). now exists rest.
Qed.

End Translation.

(* ===================================================================== *)
(** ** What [buildAndSendDiagnosticFromException] emits *)
(* ===================================================================== *)

Section Emission.

Context (L : Library).

Lemma emits_buildDiagnostic (err : JsError) (lineCount : number)
    (sourceURI : string) (s : Server L) :
  emits L err lineCount sourceURI s (buildDiagnostic err lineCount).
Proof. reflexivity. Qed.

Lemma emits_unique (err : JsError) (lineCount : number)
    (sourceURI : string) (s : Server L) (d : Diagnostic) :
  emits L err lineCount sourceURI s d -> d = buildDiagnostic err lineCount.
Proof.
  unfold emits, buildAndSendDiagnosticFromException, connection_sendDiagnostics, log.
  intros H. injection H as H. apply app_inv_head in H. now injection H.
Qed.

(** C1, as amended. When the error has the location accessor and it
    returns a location [{start: (L1, C1), end: (L2, C2)}] whose
    coordinates are 1-based and not above [2^53], the one diagnostic
    emitted has the range [(L1-1, C1-1)-(L2-1, C2-1)]: every coordinate
    is the 1-based one minus exactly 1. *)
Theorem structured_location_range
    (err : JsError) (lineCount : number) (sourceURI : string) (s : Server L)
    (L1 C1 L2 C2 : Z) :
  getFileLocation err =
    Some (Some {| loc_start := {| line := L1; column := C1 |};
                  loc_end := {| line := L2; column := C2 |} |}) ->
  coordinate L1 -> coordinate C1 -> coordinate L2 -> coordinate C2 ->
  exists d,
    emits L err lineCount sourceURI s d /\
    range d =
      {| range_start := {| pos_line := Num (L1 - 1); character := Num (C1 - 1) |};
         range_end := {| pos_line := Num (L2 - 1); character := Num (C2 - 1) |} |}.
Proof.
  intros H HL1 HC1 HL2 HC2. exists (buildDiagnostic err lineCount).
  split; [apply emits_buildDiagnostic|].
  unfold buildDiagnostic. rewrite (locate_structured _ _ _ H).
  cbn [curLine curColumn endLine endColumn range loc_start loc_end line column].
  now rewrite !sub_coordinate.
Qed.

(** C2, as amended. When the accessor exists but returns a falsy
    location, and when there is no accessor and neither the name nor the
    message of the error contains [". Line "], the diagnostic emitted
    covers the whole document: [(0, 0)-(lineCount, MAX_VALUE)]. *)
Theorem no_location_whole_document
    (err : JsError) (lineCount : number) (sourceURI : string) (s : Server L) :
  getFileLocation err = Some None \/
  (getFileLocation err = None /\
   ~ occurs ". Line " (name err) /\ ~ occurs ". Line " (message err)) ->
  exists d,
    emits L err lineCount sourceURI s d /\
    range d = wholeDocument lineCount.
Proof.
  intros H. exists (buildDiagnostic err lineCount).
  split; [apply emits_buildDiagnostic|].
  unfold buildDiagnostic. rewrite locate_default; [reflexivity|].
  destruct H as [H | (H & Hn & Hm)]; [now left | right].
  split; [assumption | now apply fullMsg_absent].
Qed.

(** C3, as amended. When there is no accessor and the message reads
    [P ++ ". Line N column M" ++ R], with [N] and [M] at least 1 and not
    above [2^53], in decimal notation, and a rest [R] that does not go on
    with a digit and contains neither [". Line "] nor [" column "], the
    message emitted is the full text, [name ++ ": " ++ message], cut just
    after the period before [" Line"], and the range is the single point
    [(N-1, M-1)]. *)
Theorem unstructured_message_point
    (err : JsError) (lineCount : number) (sourceURI : string) (s : Server L)
    (P R : string) (N M : Z) :
  getFileLocation err = None ->
  message err = P ++ ". Line " ++ decimal N ++ " column " ++ decimal M ++ R ->
  coordinate N -> coordinate M ->
  startsWithDigit R = false ->
  ~ occurs ". Line " R -> ~ occurs " column " R ->
  exists d,
    emits L err lineCount sourceURI s d /\
    diag_message d = name err ++ ": " ++ P ++ "." /\
    range d = point (Num (N - 1)) (Num (M - 1)).
Proof.
  intros Hacc Hmsg HN HM Hdigit HRline HRcol.
  exists (buildDiagnostic err lineCount).
  split; [apply emits_buildDiagnostic|].
  assert (Hlast : lastOccurrence ". Line " (fullMsg err)
                    (name err ++ ": " ++ P)
                    (decimal N ++ " column " ++ decimal M ++ R)).
  { unfold fullMsg. rewrite Hmsg.
    replace (name err ++ ": " ++ P ++ ". Line " ++ decimal N ++ " column " ++ decimal M ++ R)
      with ((name err ++ ": " ++ P) ++ ". Line " ++ decimal N ++ " column " ++ decimal M ++ R)
      by now rewrite !append_assoc.
    now apply lastOccurrence_line. }
  unfold buildDiagnostic. rewrite (locate_fallback _ _ _ _ Hacc Hlast).
  cbn [curLine curColumn endLine endColumn finalMsg diag_message range].
  rewrite (columnText_last _ _ _ (lastOccurrence_column R N M HRcol)).
  rewrite (zeroBased_decimal N) by (assumption || reflexivity).
  rewrite (zeroBased_decimal M) by assumption.
  split; [now rewrite !append_assoc | reflexivity].
Qed.

(** C4. On the fallback path, where [T] is the text after the last
    [". Line "] of the full message: if [T] does not parse as an integer
    or the integer minus 1 is negative, the start and end line emitted
    are 0; and if the column text does not parse as an integer or the
    integer minus 1 is negative, the start and end column emitted are 0.
    The column text is what the server reads the column from; it is the
    text after the last [" column "] of [T] when there is one.  A run of
    digits too long for a double behind a minus sign parses as the
    negative infinity, which is negative. *)
Theorem fallback_sanity_checks
    (err : JsError) (lineCount : number) (sourceURI : string) (s : Server L)
    (P T : string) :
  getFileLocation err = None ->
  lastOccurrence ". Line " (fullMsg err) P T ->
  exists d,
    emits L err lineCount sourceURI s d /\
    (parseInt T = NaN \/ parseInt T = Infinity true \/
     (exists v, parseInt T = Num v /\ v - 1 < 0) ->
     pos_line (range_start (range d)) = Num 0 /\
     pos_line (range_end (range d)) = Num 0) /\
    (parseInt (columnText T) = NaN \/ parseInt (columnText T) = Infinity true \/
     (exists v, parseInt (columnText T) = Num v /\ v - 1 < 0) ->
     character (range_start (range d)) = Num 0 /\
     character (range_end (range d)) = Num 0) /\
    (forall Q U, lastOccurrence " column " T Q U -> columnText T = U).
Proof.
  intros Hacc Hlast. exists (buildDiagnostic err lineCount).
  split; [apply emits_buildDiagnostic|].
  unfold buildDiagnostic. rewrite (locate_fallback _ _ _ _ Hacc Hlast).
  cbn [curLine curColumn endLine endColumn range range_start range_end
       pos_line character].
  split; [|split].
  - intros H. now rewrite (zeroBased_zero _ H).
  - intros H. now rewrite (zeroBased_zero _ H).
  - intros Q U HQU. exact (columnText_last _ _ _ HQU).
Qed.

(** C10, as amended. In every path the message emitted is a prefix of
    [name ++ ": " ++ message]: that whole text when the error has the
    accessor or the text has no [". Line "], and, on the fallback path,
    the text cut just after the period of its last [". Line "].  When the
    name of the error does not itself contain [". Line "], the message
    emitted begins with the name followed by [": "]. *)
Theorem message_keeps_name_prefix
    (err : JsError) (lineCount : number) (sourceURI : string) (s : Server L) :
  exists d,
    emits L err lineCount sourceURI s d /\
    (exists cut, fullMsg err = diag_message d ++ cut) /\
    (getFileLocation err <> None \/ ~ occurs ". Line " (fullMsg err) ->
     diag_message d = fullMsg err) /\
    (getFileLocation err = None ->
     forall P T, lastOccurrence ". Line " (fullMsg err) P T ->
                 diag_message d = P ++ "." /\ fullMsg err = diag_message d ++ " Line " ++ T) /\
    (~ occurs ". Line " (name err) ->
     exists rest, diag_message d = name err ++ ": " ++ rest).
Proof.
  exists (buildDiagnostic err lineCount).
  split; [apply emits_buildDiagnostic|].
  assert (Hcases :
    diag_message (buildDiagnostic err lineCount) = fullMsg err /\
    (getFileLocation err <> None \/ ~ occurs ". Line " (fullMsg err))
    \/
    getFileLocation err = None /\
    exists P T, lastOccurrence ". Line " (fullMsg err) P T /\
                diag_message (buildDiagnostic err lineCount) = P ++ ".").
  { destruct (getFileLocation err) as [[location|]|] eqn:Hacc.
    - left. split; [|left; discriminate]. unfold buildDiagnostic.
      now rewrite (locate_structured _ _ _ Hacc).
    - left. split; [|left; discriminate]. unfold buildDiagnostic.
      rewrite locate_default; [reflexivity | now left].
    - destruct (Z_le_gt_dec 0 (lastIndexOf ". Line " (fullMsg err))) as [Hin | Hout].
      + right. split; [reflexivity|].
        destruct (lastOccurrence_lastIndexOf _ _ Hin) as (P & T & Hlast).
        exists P, T. split; [assumption|]. unfold buildDiagnostic.
        now rewrite (locate_fallback _ _ _ _ Hacc Hlast).
      + assert (Habs : ~ occurs ". Line " (fullMsg err)).
        { apply lastIndexOf_absent.
          pose proof (lastIndexOf_lower ". Line " (fullMsg err)). lia. }
        left. split; [|now right]. unfold buildDiagnostic.
        rewrite locate_default; [reflexivity | right; now split]. }
  assert (Hcut : forall P T, lastOccurrence ". Line " (fullMsg err) P T ->
                 fullMsg err = (P ++ ".") ++ " Line " ++ T).
  { intros P T [E _]. rewrite E. now rewrite !append_assoc. }
  split; [|split; [|split]].
  - destruct Hcases as [[E _] | (_ & P & T & Hlast & E)]; rewrite E.
    + exists "". now rewrite append_nil_r.
    + exists (" Line " ++ T). now apply Hcut.
  - intros Hpath. destruct Hcases as [[E _] | (Hacc & P & T & Hlast & _)]; [assumption|].
    exfalso. destruct Hpath as [Hpath | Hpath]; [contradiction|].
    apply Hpath. destruct Hlast as [E _]. now exists P, T.
  - intros Hacc P T Hlast.
    assert (E : diag_message (buildDiagnostic err lineCount) = P ++ ".").
    { unfold buildDiagnostic. now rewrite (locate_fallback _ _ _ _ Hacc Hlast). }
    rewrite E. split; [reflexivity | now apply Hcut].
  - intros Hname. destruct Hcases as [[E _] | (_ & P & T & Hlast & E)]; rewrite E.
    + now exists (message err).
    + destruct Hlast as [EP _].
      destruct (occurrence_after_name (name err) (message err) P T) as (rest & ->);
        [now apply lastIndexOf_absent | exact EP |].
      exists (rest ++ "."). now rewrite !append_assoc.
Qed.

End Emission.

(* ===================================================================== *)
(** ** The validation functions and the dispatcher *)
(* ===================================================================== *)

Section Validation.

Context (L : Library).

Ltac run :=
  unfold validateTextDocument, validateCtoModelFile, validateNewAclModelFile,
    validateExistingAclModelFile, buildAndSendDiagnosticFromException,
    sendDiagnosticSuccess, modelManager_addModelFile, aclManager_createAclFile,
    aclManager_setAclFile, aclManager_getAclFile, aclFile_validate,
    connection_sendDiagnostics, try_catch, bind, ret, log;
  cbn [modelManager aclManager trace].

(** What [validateCtoModelFile] does, whatever the library answers. *)
Lemma validateCtoModelFile_run (textDocument : TextDocument) (s : Server L) :
  validateCtoModelFile L textDocument s =
  (let '(mm, thrown) := addModelFile L (modelManager s) (getText textDocument) in
   {| modelManager := mm;
      aclManager := aclManager s;
      trace := trace s ++
               [CallAddModelFile (getText textDocument);
                SendDiagnostics
                  {| params_uri := uri textDocument;
                     diagnostics :=
                       match thrown with
                       | Some err => [buildDiagnostic err (Num (lineCount textDocument))]
                       | None => []
                       end |}] |},
   inr tt).
Proof.
  run. destruct (addModelFile L (modelManager s) (getText textDocument)) as [mm [err|]];
    cbn [modelManager aclManager trace app]; rewrite <- app_assoc; reflexivity.
Qed.

(** What [validateExistingAclModelFile] does. *)
Lemma validateExistingAclModelFile_run (aclFile : File L) (s : Server L) :
  validateExistingAclModelFile L aclFile s =
  ({| modelManager := modelManager s;
      aclManager := aclManager s;
      trace := trace s ++
               [CallValidate aclFile;
                SendDiagnostics
                  {| params_uri := getIdentifier aclFile;
                     diagnostics :=
                       match validate L (modelManager s) aclFile with
                       | Some err => [buildDiagnostic err (acl_lineCount aclFile)]
                       | None => []
                       end |}] |},
   inr tt).
Proof.
  run. destruct (validate L (modelManager s) aclFile) as [err|];
    cbn [modelManager aclManager trace app]; rewrite <- app_assoc; reflexivity.
Qed.

(** What [validateNewAclModelFile] does when [createAclFile] throws:
    [setAclFile] is not called. *)
Lemma validateNewAclModelFile_rejected (textDocument : TextDocument) (s : Server L)
    (err : JsError) :
  createAclFile L (modelManager s) (uri textDocument) (getText textDocument) = inl err ->
  validateNewAclModelFile L textDocument s =
  ({| modelManager := modelManager s;
      aclManager := aclManager s;
      trace := trace s ++
               [CallCreateAclFile (uri textDocument) (getText textDocument);
                SendDiagnostics
                  {| params_uri := uri textDocument;
                     diagnostics := [buildDiagnostic err (Num (lineCount textDocument))] |}] |},
   inr tt).
Proof.
  intros H. run. rewrite H.
  cbn [modelManager aclManager trace app]. rewrite <- app_assoc. reflexivity.
Qed.

(** What it does when [createAclFile] returns [f0]: [setAclFile] gets
    [f0] with the line count of the document on it. *)
Lemma validateNewAclModelFile_created (textDocument : TextDocument) (s : Server L)
    (f0 : File L) :
  createAclFile L (modelManager s) (uri textDocument) (getText textDocument) = inr f0 ->
  validateNewAclModelFile L textDocument s =
  (let f := set_lineCount f0 (Num (lineCount textDocument)) in
   let '(tracked, thrown) := setAclFile L (modelManager s) (aclManager s) f in
   {| modelManager := modelManager s;
      aclManager := tracked;
      trace := trace s ++
               [CallCreateAclFile (uri textDocument) (getText textDocument);
                CallSetAclFile f;
                SendDiagnostics
                  {| params_uri := uri textDocument;
                     diagnostics :=
                       match thrown with
                       | Some err => [buildDiagnostic err (Num (lineCount textDocument))]
                       | None => []
                       end |}] |},
   inr tt).
Proof.
  intros H. run. rewrite H. cbn [modelManager aclManager trace].
  destruct (setAclFile L (modelManager s) (aclManager s)
              (set_lineCount f0 (Num (lineCount textDocument)))) as [tracked [err|]];
    cbn [modelManager aclManager trace app]; rewrite <- !app_assoc; reflexivity.
Qed.

Lemma hasData_true (txt : string) : txt <> "" -> hasData (Some txt) = true.
Proof.
  intros H. destruct txt as [|c t]; [contradiction|].
  unfold hasData, JS.length. simpl String.length. apply Z.ltb_lt. lia.
Qed.

(** C5. Each of the three validation functions returns without throwing
    and publishes exactly once, for the URI of the document it was given
    (the identifier of the file, for the tracked ACL file): the empty
    list when the library calls returned, and a list of exactly one
    diagnostic when one of them threw. *)
Theorem validation_publishes_once
    (textDocument : TextDocument) (aclFile : File L) (s : Server L) :
  publishesOnce s
    (fst (validateCtoModelFile L textDocument s))
    (snd (validateCtoModelFile L textDocument s))
    (uri textDocument)
    (snd (addModelFile L (modelManager s) (getText textDocument)))
    (Num (lineCount textDocument))
  /\
  publishesOnce s
    (fst (validateNewAclModelFile L textDocument s))
    (snd (validateNewAclModelFile L textDocument s))
    (uri textDocument)
    (newAclThrown L s textDocument)
    (Num (lineCount textDocument))
  /\
  publishesOnce s
    (fst (validateExistingAclModelFile L aclFile s))
    (snd (validateExistingAclModelFile L aclFile s))
    (getIdentifier aclFile)
    (validate L (modelManager s) aclFile)
    (acl_lineCount aclFile).
Proof.
  unfold publishesOnce. repeat split.
  - rewrite validateCtoModelFile_run.
    now destruct (addModelFile L (modelManager s) (getText textDocument)).
  - rewrite validateCtoModelFile_run.
    destruct (addModelFile L (modelManager s) (getText textDocument)) as [mm thrown].
    now exists [CallAddModelFile (getText textDocument)].
  - destruct (createAclFile L (modelManager s) (uri textDocument) (getText textDocument))
      as [err | f0] eqn:E.
    + now rewrite (validateNewAclModelFile_rejected _ _ _ E).
    + rewrite (validateNewAclModelFile_created _ _ _ E). cbv zeta.
      now destruct (setAclFile L (modelManager s) (aclManager s)
                      (set_lineCount f0 (Num (lineCount textDocument)))).
  - unfold newAclThrown.
    destruct (createAclFile L (modelManager s) (uri textDocument) (getText textDocument))
      as [err | f0] eqn:E.
    + rewrite (validateNewAclModelFile_rejected _ _ _ E).
      now exists [CallCreateAclFile (uri textDocument) (getText textDocument)].
    + rewrite (validateNewAclModelFile_created _ _ _ E). cbv zeta.
      destruct (setAclFile L (modelManager s) (aclManager s)
                  (set_lineCount f0 (Num (lineCount textDocument)))) as [tracked thrown].
      now exists [CallCreateAclFile (uri textDocument) (getText textDocument);
                  CallSetAclFile (set_lineCount f0 (Num (lineCount textDocument)))].
  - now rewrite validateExistingAclModelFile_run.
  - rewrite validateExistingAclModelFile_run.
    now exists [CallValidate aclFile].
Qed.

Lemma published_app (t u : list (Event L)) :
  published (t ++ u) = (published t ++ published u)%list.
Proof.
  induction t as [|e t IH]; [reflexivity|].
  destruct e; cbn [app published]; now rewrite IH.
Qed.

(** A validation attempt adds exactly one publication to those made
    before. *)
Lemma publishesOnce_published (s s' : Server L) (r : JsError + unit)
    (uri : string) (thrown : option JsError) (lineCount : number) :
  publishesOnce s s' r uri thrown lineCount ->
  exists p,
    published (trace s') = (published (trace s) ++ [p])%list /\
    params_uri p = uri /\
    (List.length (diagnostics p) <= 1)%nat.
Proof.
  intros (_ & calls & Hcalls & ->).
  eexists. rewrite !published_app, Hcalls. cbn [published app].
  split; [reflexivity|]. split; [reflexivity|].
  destruct thrown; cbn; lia.
Qed.

(** C6. A change of a document that is not of the permissions kind and
    has text makes the server, in this order: call [addModelFile] with
    the text and publish for the URI of the document; then, exactly when
    the ACL manager tracks a file, call [validate] on that file and
    publish for its identifier.  The second step does not depend on
    whether [addModelFile] threw. *)
Theorem model_change_revalidates_acl
    (textDocument : TextDocument) (txt : string) (s : Server L) :
  getText textDocument = Some txt ->
  txt <> "" ->
  languageId textDocument <> "composer-acl" ->
  exists s',
    validateTextDocument L textDocument s = (s', inr tt) /\
    modelManager s' = fst (addModelFile L (modelManager s) (Some txt)) /\
    aclManager s' = aclManager s /\
    trace s' =
      (trace s ++
       [CallAddModelFile (Some txt);
        SendDiagnostics
          {| params_uri := uri textDocument;
             diagnostics :=
               match snd (addModelFile L (modelManager s) (Some txt)) with
               | Some err => [buildDiagnostic err (Num (lineCount textDocument))]
               | None => []
               end |}] ++
       match aclManager s with
       | Some aclFile =>
           [CallValidate aclFile;
            SendDiagnostics
              {| params_uri := getIdentifier aclFile;
                 diagnostics :=
                   match validate L (modelManager s') aclFile with
                   | Some err => [buildDiagnostic err (acl_lineCount aclFile)]
                   | None => []
                   end |}]
       | None => []
       end)%list.
Proof.
  intros Htxt Hdata Hlang.
  unfold validateTextDocument. rewrite Htxt, (hasData_true _ Hdata).
  apply String.eqb_neq in Hlang. rewrite Hlang.
  unfold bind at 1. rewrite validateCtoModelFile_run, Htxt.
  destruct (addModelFile L (modelManager s) (Some txt)) as [mm thrown].
  unfold bind, aclManager_getAclFile. cbn [aclManager fst snd].
  destruct (aclManager s) as [aclFile|].
  - rewrite validateExistingAclModelFile_run. cbn [modelManager aclManager trace].
    eexists. split; [reflexivity|]. cbn [modelManager aclManager trace].
    repeat split. now rewrite <- app_assoc.
  - unfold ret. eexists. split; [reflexivity|]. cbn [modelManager aclManager trace].
    repeat split.
Qed.

(** C7. A change of a document whose text is null or empty leaves the
    server as it was: no call to the library, nothing published, both
    managers unchanged. *)
Theorem empty_document_skipped (textDocument : TextDocument) (s : Server L) :
  getText textDocument = None \/ getText textDocument = Some "" ->
  validateTextDocument L textDocument s = (s, inr tt).
Proof.
  unfold validateTextDocument. now intros [-> | ->].
Qed.

(** C8, as amended. A validation of a permissions-kind document with
    text calls [createAclFile] with the URI and the full text.  When that
    returns a file, the server calls [setAclFile] once, on that file with
    the line count of the document recorded on it; and when [setAclFile]
    returns, that file is the one tracked file, whatever was tracked
    before.  When [createAclFile] throws, [setAclFile] is not called, the
    one diagnostic of the exception is published, and the file tracked
    before stays tracked. *)
Theorem new_acl_file_replaces_tracked
    (textDocument : TextDocument) (txt : string) (s : Server L) :
  setAclFile_replaces L ->
  languageId textDocument = "composer-acl" ->
  getText textDocument = Some txt ->
  txt <> "" ->
  match createAclFile L (modelManager s) (uri textDocument) (Some txt) with
  | inr f0 =>
      exists s' p,
        validateTextDocument L textDocument s = (s', inr tt) /\
        trace s' =
          (trace s ++
           [CallCreateAclFile (uri textDocument) (Some txt);
            CallSetAclFile (set_lineCount f0 (Num (lineCount textDocument)));
            SendDiagnostics p])%list /\
        params_uri p = uri textDocument /\
        (snd (setAclFile L (modelManager s) (aclManager s)
                (set_lineCount f0 (Num (lineCount textDocument)))) = None ->
         diagnostics p = [] /\
         aclManager s' = Some (set_lineCount f0 (Num (lineCount textDocument))) /\
         (forall f, aclManager s' = Some f ->
                    acl_lineCount f = Num (lineCount textDocument)))
  | inl err =>
      exists s',
        validateTextDocument L textDocument s = (s', inr tt) /\
        trace s' =
          (trace s ++
           [CallCreateAclFile (uri textDocument) (Some txt);
            SendDiagnostics
              {| params_uri := uri textDocument;
                 diagnostics := [buildDiagnostic err (Num (lineCount textDocument))] |}])%list /\
        aclManager s' = aclManager s
  end.
Proof.
  intros Hcontract Hlang Htxt Hdata.
  unfold validateTextDocument.
  rewrite Htxt, (hasData_true _ Hdata), Hlang, String.eqb_refl.
  destruct (createAclFile L (modelManager s) (uri textDocument) (Some txt))
    as [err | f0] eqn:Hcreate; rewrite <- Htxt in Hcreate.
  - rewrite (validateNewAclModelFile_rejected _ _ _ Hcreate). rewrite Htxt.
    eexists. split; [reflexivity|]. now split.
  - rewrite (validateNewAclModelFile_created _ _ _ Hcreate). cbv zeta. rewrite Htxt.
    destruct (setAclFile L (modelManager s) (aclManager s)
                (set_lineCount f0 (Num (lineCount textDocument))))
      as [tracked thrown] eqn:Hset.
    do 2 eexists. split; [reflexivity|]. cbn [trace aclManager params_uri diagnostics snd].
    split; [reflexivity|]. split; [reflexivity|].
    intros ->. apply Hcontract in Hset. subst tracked.
    repeat split. now intros f [= <-].
Qed.

End Validation.

(* ===================================================================== *)
(** ** The diagram flow *)
(* ===================================================================== *)

Section DiagramFlow.

Import Client.

Lemma checkPreviewer_quiet (w : Window) :
  filter isLaterStep (fst (checkPreviewer w)) = [].
Proof.
  unfold checkPreviewer.
  destruct (autoShowDiagamSetting w), (plantumlInstalled w), (previewAutoUpdate w),
    (String.eqb (previewFileType w) "svg"); reflexivity.
Qed.

(** C9. When the edit that replaces the content of the temporary file is
    not applied, the flow ends right after the edit with the console
    message ["Client could not apply edit"]: there is no save, no
    command (preview, closing the editor, cursor move) and no refocus;
    the only document shown in the whole run is the temporary one,
    before the edit. *)
Theorem edit_not_applied_aborts
    (w : Window) (docContent : string) (originatingFileName : option string) :
  editApplied w = false ->
  (exists before,
     handleGenerateUml w docContent originatingFileName =
     (before ++ [EditReplace (documentLineCount w - 1) (lastLineLength w) docContent;
                 ConsoleLog "Client could not apply edit"])%list) /\
  filter isLaterStep (handleGenerateUml w docContent originatingFileName) =
    [ShowTextDocument (umlDocUri w) (Some ViewColumn_One)].
Proof.
  intros Hedit. unfold handleGenerateUml.
  destruct (resolveOrigin w originatingFileName) as [origin target].
  pose proof (checkPreviewer_quiet w) as Hquiet.
  destruct (checkPreviewer w) as [calls autoShow]. cbn [fst] in Hquiet.
  unfold afterEdit. rewrite Hedit. cbn [negb].
  unfold openAndEdit. split.
  - exists (calls ++ (if negb (existsSync w) then [WriteFileSync (fileName w) ""] else [])
            ++ [OpenTextDocument (umlDocUri w);
                ShowTextDocument (umlDocUri w) (Some ViewColumn_One)])%list.
    rewrite <- !app_assoc. reflexivity.
  - rewrite !filter_app, Hquiet.
    destruct (existsSync w); reflexivity.
Qed.

End DiagramFlow.

(* ===================================================================== *)
(** ** The primitives and the server on concrete inputs *)
(* ===================================================================== *)

Example parseInt_5_column_3 : parseInt "5 column 3" = Num 5.
Proof. reflexivity. Qed.

Example parseInt_spaces_sign : parseInt "  -12px" = Num (-12).
Proof. reflexivity. Qed.

Example parseInt_not_a_number : parseInt "x7" = NaN.
Proof. reflexivity. Qed.

Example lastIndexOf_picks_last : lastIndexOf "ab" "abcabc" = 3.
Proof. reflexivity. Qed.

Example lastIndexOf_none : lastIndexOf ". Line " "Foo error" = -1.
Proof. reflexivity. Qed.

Example substr_after_line : substr "Foo error. Line 5 column 3" 16 = "5 column 3".
Proof. reflexivity. Qed.

Example substr_up_to_period : substr2 "Foo error. Line 5 column 3" 0 10 = "Foo error.".
Proof. reflexivity. Qed.

Example decimal_1234 : decimal 1234 = "1234".
Proof. reflexivity. Qed.

(** The toy library keeps the contract of [setAclFile]. *)
Lemma toy_setAclFile_replaces : setAclFile_replaces Toy.library.
Proof.
  intros mm old f tracked. cbn [setAclFile Toy.library]. unfold Toy.setAcl.
  destruct (Toy.validateAcl mm f); [discriminate|]. now intros [= <-].
Qed.

Lemma absent_by_search (pat s : string) : lastIndexOf pat s = -1 -> ~ occurs pat s.
Proof. apply lastIndexOf_absent. Qed.

Lemma last_by_search (c : ascii) (pat' pre post s : string) :
  s = pre ++ String c pat' ++ post ->
  lastIndexOf (String c pat') (pat' ++ post) = -1 ->
  lastOccurrence (String c pat') s pre post.
Proof. intros ->. apply lastOccurrence_intro. Qed.


(* ===================================================================== *)
(** ** The theorems at concrete inputs *)
(* ===================================================================== *)

Import Samples.

Ltac in_range := unfold coordinate; split; [lia | now vm_compute].

(** C1 on [located]: the location (3,5)-(4,9) becomes (2,4)-(3,8). *)
Lemma structured_location_range_witness :
  exists d,
    emits Toy.library located (Num 20) modelUri Toy.initial d /\
    range d =
      {| range_start := {| pos_line := Num 2; character := Num 4 |};
         range_end := {| pos_line := Num 3; character := Num 8 |} |}.
Proof.
  apply (structured_location_range Toy.library located (Num 20) modelUri Toy.initial 3 5 4 9).
  - reflexivity.
  - in_range.
  - in_range.
  - in_range.
  - in_range.
Defined.

(** C1 as stated fails on [MoreSamples.farAway], whose location starts at
    line [2^53 + 2]: the line emitted is [2^53], the double nearest to
    [2^53 + 1], not the coordinate minus 1. *)
Lemma structured_location_range_counterexample :
  getFileLocation MoreSamples.farAway =
    Some (Some {| loc_start := {| line := 2 ^ 53 + 2; column := 1 |};
                  loc_end := {| line := 2 ^ 53 + 2; column := 2 |} |}) /\
  emits Toy.library MoreSamples.farAway (Num 20) modelUri Toy.initial
    (buildDiagnostic MoreSamples.farAway (Num 20)) /\
  pos_line (range_start (range (buildDiagnostic MoreSamples.farAway (Num 20))))
    = Num (2 ^ 53) /\
  pos_line (range_start (range (buildDiagnostic MoreSamples.farAway (Num 20))))
    <> Num (2 ^ 53 + 2 - 1).
Proof.
  split; [reflexivity|]. split; [reflexivity|].
  split; [vm_compute; reflexivity|].
  intros H. vm_compute in H. discriminate H.
Qed.

(** C2 on [Toy.noModel], which has no accessor and no [". Line "]. *)
Lemma no_location_whole_document_witness :
  exists d,
    emits Toy.library Toy.noModel (Num 20) modelUri Toy.initial d /\
    range d = wholeDocument (Num 20).
Proof.
  apply (no_location_whole_document Toy.library Toy.noModel (Num 20) modelUri Toy.initial).
  right. split; [reflexivity|].
  split; apply absent_by_search; reflexivity.
Defined.

(** C2 as stated fails on [oddName]: there is no accessor and the message
    ["boom"] has no [". Line "], but the full message ["E. Line 7: boom"]
    has one, and the range is the point (6,0), not the whole document. *)
Lemma no_location_whole_document_counterexample :
  getFileLocation oddName = None /\
  ~ occurs ". Line " (message oddName) /\
  emits Toy.library oddName (Num 20) modelUri Toy.initial
    (buildDiagnostic oddName (Num 20)) /\
  range (buildDiagnostic oddName (Num 20)) = point (Num 6) (Num 0) /\
  range (buildDiagnostic oddName (Num 20)) <> wholeDocument (Num 20).
Proof.
  split; [reflexivity|].
  split; [apply absent_by_search; reflexivity|].
  split; [reflexivity|].
  split; [reflexivity|].
  intros H. vm_compute in H. discriminate H.
Qed.

(** C3 on [fooError]: the message emitted is ["Error: Foo error."] and the
    range the point (4,2). *)
Lemma unstructured_message_point_witness :
  exists d,
    emits Toy.library fooError (Num 20) modelUri Toy.initial d /\
    diag_message d = "Error: Foo error." /\
    range d = point (Num 4) (Num 2).
Proof.
  apply (unstructured_message_point Toy.library fooError (Num 20) modelUri Toy.initial
           "Foo error" "" 5 3).
  - reflexivity.
  - reflexivity.
  - in_range.
  - in_range.
  - reflexivity.
  - apply absent_by_search; reflexivity.
  - apply absent_by_search; reflexivity.
Defined.

(** C3 as stated fails twice.  On [fooError], whose message is the
    example of the claim, the message emitted is ["Error: Foo error."],
    not ["Foo error."].  On [twoPlaces], whose message contains
    [". Line 5 column 3"], the range is the point (8,0), read from the last
    [". Line "], not (4,2). *)
Lemma unstructured_message_point_counterexample :
  (getFileLocation fooError = None /\
   message fooError = "Foo error. Line 5 column 3" /\
   emits Toy.library fooError (Num 20) modelUri Toy.initial
     (buildDiagnostic fooError (Num 20)) /\
   diag_message (buildDiagnostic fooError (Num 20)) = "Error: Foo error." /\
   diag_message (buildDiagnostic fooError (Num 20)) <> "Foo error.") /\
  (getFileLocation twoPlaces = None /\
   occurs ". Line 5 column 3" (message twoPlaces) /\
   emits Toy.library twoPlaces (Num 20) modelUri Toy.initial
     (buildDiagnostic twoPlaces (Num 20)) /\
   range (buildDiagnostic twoPlaces (Num 20)) = point (Num 8) (Num 0) /\
   range (buildDiagnostic twoPlaces (Num 20)) <> point (Num 4) (Num 2)).
Proof.
  split.
  - repeat (split; [reflexivity|]). intros H. vm_compute in H. discriminate H.
  - split; [reflexivity|].
    split; [exists "Foo", " in a file included. Line 9 column 1"; reflexivity|].
    repeat (split; [reflexivity|]). intros H. vm_compute in H. discriminate H.
Qed.

(** C4 on [unreadable]: neither ["x column y"] nor ["y"] parses, and the
    diagnostic is at line 0, column 0. *)
Lemma fallback_sanity_checks_witness :
  exists d,
    emits Toy.library unreadable (Num 20) modelUri Toy.initial d /\
    (parseInt "x column y" = NaN \/ parseInt "x column y" = Infinity true \/
     (exists v, parseInt "x column y" = Num v /\ v - 1 < 0) ->
     pos_line (range_start (range d)) = Num 0 /\
     pos_line (range_end (range d)) = Num 0) /\
    (parseInt (columnText "x column y") = NaN \/
     parseInt (columnText "x column y") = Infinity true \/
     (exists v, parseInt (columnText "x column y") = Num v /\ v - 1 < 0) ->
     character (range_start (range d)) = Num 0 /\
     character (range_end (range d)) = Num 0) /\
    (forall Q U, lastOccurrence " column " "x column y" Q U ->
                 columnText "x column y" = U).
Proof.
  apply (fallback_sanity_checks Toy.library unreadable (Num 20) modelUri Toy.initial
           "Error: Bad" "x column y").
  - reflexivity.
  - apply last_by_search; reflexivity.
Defined.

(** On [unreadable] both premises of C4 hold: the diagnostic is at line 0,
    column 0, and the message is cut after ["Bad."]. *)
Example unreadable_at_origin :
  parseInt "x column y" = NaN /\
  columnText "x column y" = "y" /\
  parseInt "y" = NaN /\
  range (buildDiagnostic unreadable (Num 20)) = point (Num 0) (Num 0) /\
  diag_message (buildDiagnostic unreadable (Num 20)) = "Error: Bad.".
Proof. repeat split. Qed.

(** Without [" column "] the column is read from offset 7 of the text
    after [". Line "]: here from ["5"]. *)
Example column_without_marker :
  columnText "12 col 5" = "5" /\
  range (buildDiagnostic noColumn (Num 20)) = point (Num 11) (Num 4).
Proof. split; reflexivity. Qed.

(** C6 on [model] with [oldAcl] tracked. *)
Lemma model_change_revalidates_acl_witness :
  exists s',
    validateTextDocument Toy.library model tracking = (s', inr tt) /\
    modelManager s' =
      fst (addModelFile Toy.library (modelManager tracking) (Some "namespace org.acme")) /\
    aclManager s' = aclManager tracking /\
    trace s' =
      (trace tracking ++
       [CallAddModelFile (Some "namespace org.acme");
        SendDiagnostics
          {| params_uri := uri model;
             diagnostics :=
               match snd (addModelFile Toy.library (modelManager tracking)
                            (Some "namespace org.acme")) with
               | Some err => [buildDiagnostic err (Num (lineCount model))]
               | None => []
               end |}] ++
       match aclManager tracking with
       | Some aclFile =>
           [CallValidate aclFile;
            SendDiagnostics
              {| params_uri := getIdentifier aclFile;
                 diagnostics :=
                   match validate Toy.library (modelManager s') aclFile with
                   | Some err => [buildDiagnostic err (acl_lineCount aclFile)]
                   | None => []
                   end |}]
       | None => []
       end)%list.
Proof.
  apply (model_change_revalidates_acl Toy.library model "namespace org.acme" tracking).
  - reflexivity.
  - discriminate.
  - discriminate.
Defined.

(** A model the manager already holds is rejected, and the tracked ACL file
    is revalidated all the same: two publications, the first with the one
    diagnostic of the rejection, over the whole document. *)
Example rejected_model_still_revalidates :
  validateTextDocument Toy.library model
    (Build_Server Toy.library ["namespace org.acme"] (Some oldAcl) []) =
  (Build_Server Toy.library ["namespace org.acme"] (Some oldAcl)
     [CallAddModelFile (Some "namespace org.acme");
      SendDiagnostics
        {| params_uri := modelUri;
           diagnostics :=
             [{| severity := Error;
                 range := wholeDocument (Num 1);
                 code := "IllegalModelException";
                 diag_message := "IllegalModelException: Duplicate model file";
                 source := "Composer" |}] |};
      CallValidate oldAcl;
      SendDiagnostics {| params_uri := aclUri; diagnostics := [] |}],
   inr tt).
Proof. reflexivity. Qed.

(** C7 on [emptyModel]. *)
Lemma empty_document_skipped_witness :
  validateTextDocument Toy.library emptyModel tracking = (tracking, inr tt).
Proof.
  apply (empty_document_skipped Toy.library emptyModel tracking).
  right. reflexivity.
Defined.

(** C8 on [goodAcl], with [oldAcl] tracked before: afterwards the tracked
    file is the new one, 12 lines long. *)
Lemma new_acl_file_replaces_tracked_witness :
  exists s' p,
    validateTextDocument Toy.library goodAcl tracking = (s', inr tt) /\
    trace s' =
      (trace tracking ++
       [CallCreateAclFile aclUri (Some "rule Everyone { }");
        CallSetAclFile newAcl;
        SendDiagnostics p])%list /\
    params_uri p = aclUri /\
    (snd (setAclFile Toy.library (modelManager tracking) (aclManager tracking) newAcl)
       = None ->
     diagnostics p = [] /\
     aclManager s' = Some newAcl /\
     (forall f, aclManager s' = Some f -> acl_lineCount f = Num 12)).
Proof.
  apply (new_acl_file_replaces_tracked Toy.library goodAcl "rule Everyone { }" tracking).
  - exact toy_setAclFile_replaces.
  - reflexivity.
  - reflexivity.
  - discriminate.
Defined.

(** C8 on [badAcl], which does not parse: [oldAcl] stays tracked. *)
Example rejected_acl_keeps_tracked :
  exists s',
    validateTextDocument Toy.library badAcl tracking = (s', inr tt) /\
    trace s' =
      (trace tracking ++
       [CallCreateAclFile aclUri (Some "garbage");
        SendDiagnostics
          {| params_uri := aclUri;
             diagnostics := [buildDiagnostic Toy.parseError (Num 2)] |}])%list /\
    aclManager s' = Some oldAcl.
Proof. eexists. repeat split. Qed.

(** C8 as stated fails on [badAcl]: [createAclFile] throws, [setAclFile]
    is not called, and the file tracked afterwards is still [oldAcl], with
    its 7 lines. *)
Lemma new_acl_file_replaces_tracked_counterexample :
  languageId badAcl = "composer-acl" /\
  getText badAcl = Some "garbage" /\
  aclManager tracking = Some oldAcl /\
  validateTextDocument Toy.library badAcl tracking =
    (Build_Server Toy.library ["namespace org.base"] (Some oldAcl)
       [CallCreateAclFile aclUri (Some "garbage");
        SendDiagnostics
          {| params_uri := aclUri;
             diagnostics := [buildDiagnostic Toy.parseError (Num 2)] |}],
     inr tt) /\
  acl_lineCount oldAcl = Num 7 /\
  Num 7 <> Num (lineCount badAcl).
Proof.
  repeat (split; [reflexivity|]). discriminate.
Qed.

(** C9 on [editFails]. *)
Lemma edit_not_applied_aborts_witness :
  (exists before,
     Client.handleGenerateUml editFails "@startuml" (Some modelUri) =
     (before ++ [Client.EditReplace 0 0 "@startuml";
                 Client.ConsoleLog "Client could not apply edit"])%list) /\
  filter Client.isLaterStep
    (Client.handleGenerateUml editFails "@startuml" (Some modelUri)) =
    [Client.ShowTextDocument "file:///tmp/composer.puml" (Some 1)].
Proof.
  apply (edit_not_applied_aborts editFails "@startuml" (Some modelUri)).
  reflexivity.
Defined.

(** C10 on [oddName], whose name contains [". Line "]: the message
    emitted, ["E."], is a prefix of the full text. *)
Lemma message_keeps_name_prefix_witness :
  exists d,
    emits Toy.library oddName (Num 20) modelUri Toy.initial d /\
    (exists cut, "E. Line 7: boom" = diag_message d ++ cut) /\
    (getFileLocation oddName <> None \/ ~ occurs ". Line " "E. Line 7: boom" ->
     diag_message d = "E. Line 7: boom") /\
    (getFileLocation oddName = None ->
     forall P T, lastOccurrence ". Line " "E. Line 7: boom" P T ->
                 diag_message d = P ++ "." /\
                 "E. Line 7: boom" = diag_message d ++ " Line " ++ T) /\
    (~ occurs ". Line " "E. Line 7" ->
     exists rest, diag_message d = "E. Line 7" ++ ": " ++ rest).
Proof.
  apply (message_keeps_name_prefix Toy.library oddName (Num 20) modelUri Toy.initial).
Defined.

(** On [fooError], whose name has no [". Line "], the message emitted
    begins with the name. *)
Example fooError_keeps_name :
  ~ occurs ". Line " (name fooError) /\
  diag_message (buildDiagnostic fooError (Num 20)) = "Error: " ++ "Foo error.".
Proof. split; [apply absent_by_search; reflexivity | reflexivity]. Qed.

(** C10 as stated fails on [oddName]: the last [". Line "] of the full
    message ["E. Line 7: boom"] lies in the name, and the message emitted,
    ["E."], does not begin with ["E. Line 7: "]. *)
Lemma message_keeps_name_prefix_counterexample :
  emits Toy.library oddName (Num 20) modelUri Toy.initial
    (buildDiagnostic oddName (Num 20)) /\
  diag_message (buildDiagnostic oddName (Num 20)) = "E." /\
  ~ exists rest,
      diag_message (buildDiagnostic oddName (Num 20)) = name oddName ++ ": " ++ rest.
Proof.
  split; [reflexivity|]. split; [reflexivity|].
  intros (rest & H). vm_compute in H. discriminate H.
Qed.

(* ===================================================================== *)
(** ** More on the translation: clamping, precedence, missing column *)
(* ===================================================================== *)

Section MoreTranslation.

Context (L : Library).

Lemma zeroBased_notNegative (text : string) : notNegative (zeroBased text).
Proof.
  unfold zeroBased. destruct (sub (parseInt text) (Num 1)) as [|z|[|]];
    cbn [isNaN lt orb notNegative]; try lia; try reflexivity.
  destruct (z <? 0) eqn:E; cbn [notNegative]; [lia | now apply Z.ltb_ge].
Qed.

Lemma parseInt_signed (z : Z) (rest : string) :
  startsWithDigit rest = false ->
  parseInt (signedDecimal z ++ rest) = roundInteger z.
Proof.
  intros Hrest. unfold signedDecimal.
  destruct (z <? 0) eqn:E.
  - apply Z.ltb_lt in E.
    change (("-" ++ decimal (- z)) ++ rest) with (String "-" (decimal (- z) ++ rest)).
    unfold parseInt. cbn [skipWhiteSpace]. change (isWhiteSpace "-") with false. cbv iota.
    unfold decimal.
    rewrite (readDigits_uint rest Hrest _ false (or_introl (to_uint_nonnil _))).
    change (Pos.of_uint (N.to_uint (Z.to_N (- z)))) with (N.of_uint (N.to_uint (Z.to_N (- z)))).
    rewrite DecimalN.Unsigned.of_to. f_equal. lia.
  - apply Z.ltb_ge in E. now apply parseInt_decimal.
Qed.

(** What is not positive reads as 0. *)
Lemma zeroBased_not_positive (text : string) (z : Z) :
  z <= 0 -> parseInt text = roundInteger z -> zeroBased text = Num 0.
Proof.
  intros Hz Hparse. apply zeroBased_zero. rewrite Hparse.
  destruct (roundInteger_sign z) as (m & Hm & Hpos & [-> | [Hnz ->]]).
  - right. right. exists (Z.sgn z * m). split; [reflexivity|].
    assert (Z.sgn z <= 0) by lia. nia.
  - right. left. f_equal. apply Z.ltb_lt. lia.
Qed.

Lemma zeroBased_signed (z : Z) (rest : string) :
  z <= 2 ^ 53 ->
  startsWithDigit rest = false ->
  zeroBased (signedDecimal z ++ rest) = Num (Z.max 0 (z - 1)).
Proof.
  intros Hz Hrest. destruct (Z_le_gt_dec z 0) as [Hneg | Hpos].
  - rewrite (zeroBased_not_positive _ z Hneg (parseInt_signed z rest Hrest)).
    f_equal. lia.
  - unfold signedDecimal. destruct (Z.ltb_spec z 0); [lia|].
    rewrite zeroBased_decimal; [f_equal; lia | split; lia | assumption].
Qed.

Lemma lastIndexOf_skip (p : ascii) (pat' x s : string) :
  without p x = true ->
  lastIndexOf (String p pat') s = -1 ->
  lastIndexOf (String p pat') (x ++ s) = -1.
Proof.
  intros Hx Hs. induction x as [|c x IH]; [assumption|].
  cbn [without] in Hx. apply andb_true_iff in Hx as [Hc Hx].
  change (String c x ++ s) with (String c (x ++ s)).
  apply lastIndexOf_cons_absent; [now apply IH|].
  cbn [startsWith]. apply negb_true_iff in Hc. now rewrite Hc.
Qed.

Lemma without_digits (p : ascii) (s : string) :
  isDigit p = false -> allDigits s = true -> without p s = true.
Proof.
  intros Hp. induction s as [|c s IH]; [reflexivity|].
  cbn [allDigits without]. intros H. apply andb_true_iff in H as [Hc Hs].
  now rewrite (digit_not p c Hp Hc), IH.
Qed.

Lemma without_signed (p : ascii) (z : Z) :
  isDigit p = false -> Ascii.eqb p "-" = false ->
  without p (signedDecimal z) = true.
Proof.
  intros Hp Hminus. unfold signedDecimal. destruct (z <? 0).
  - change ("-" ++ decimal (- z)) with (String "-" (decimal (- z))).
    cbn [without]. rewrite Hminus. cbn [negb andb].
    apply without_digits; [assumption | apply allDigits_decimal].
  - apply without_digits; [assumption | apply allDigits_decimal].
Qed.

(** The notation of an integer starts with a digit or a minus sign. *)
Lemma signedDecimal_head (z : Z) :
  exists c t, signedDecimal z = String c t /\ Ascii.eqb "c" c = false.
Proof.
  unfold signedDecimal. destruct (z <? 0).
  - now exists "-"%char, (decimal (- z)).
  - destruct (decimal_digits z) as (d & ds & -> & Hd & _).
    exists d, ds. split; [reflexivity|]. now apply digit_not.
Qed.

Lemma lastOccurrence_signed_line (P R : string) (n m : Z) :
  ~ occurs ". Line " R ->
  lastOccurrence ". Line "
    (P ++ ". Line " ++ signedDecimal n ++ " column " ++ signedDecimal m ++ R)
    P (signedDecimal n ++ " column " ++ signedDecimal m ++ R).
Proof.
  intros HR. apply lastIndexOf_absent in HR.
  apply lastOccurrence_intro. cbn [append].
  repeat (apply lastIndexOf_cons_absent; [|reflexivity]).
  apply lastIndexOf_skip; [now apply without_signed|].
  cbn [append].
  repeat (apply lastIndexOf_cons_absent; [|reflexivity]).
  apply lastIndexOf_skip; [now apply without_signed | assumption].
Qed.

Lemma lastOccurrence_signed_column (R : string) (n m : Z) :
  ~ occurs " column " R ->
  lastOccurrence " column "
    (signedDecimal n ++ " column " ++ signedDecimal m ++ R)
    (signedDecimal n) (signedDecimal m ++ R).
Proof.
  intros HR. apply lastIndexOf_absent in HR.
  apply lastOccurrence_intro. cbn [append].
  pose proof (without_signed " " m eq_refl eq_refl) as Hw.
  destruct (signedDecimal_head m) as (c & t & E & Hc). rewrite E in *.
  do 6 (apply lastIndexOf_cons_absent; [|reflexivity]).
  apply lastIndexOf_cons_absent.
  - now apply lastIndexOf_skip.
  - cbn [append startsWith]. now rewrite Hc.
Qed.

Lemma substring_none (n : nat) (s : string) : String.substring n 0 s = "".
Proof.
  revert n; induction s as [|c s IH]; intros [|n]; cbn [String.substring];
    try reflexivity. apply IH.
Qed.

(** [s.substr(n)] is empty when [s] has no more than [n] characters. *)
Lemma substr_beyond (s : string) (n : Z) :
  JS.length s <= n -> substr s n = "".
Proof.
  unfold substr, substr2, JS.length. intros H.
  destruct (n <? 0) eqn:E; [apply Z.ltb_lt in E; lia|].
  replace (Z.min n (Z.of_nat (String.length s))) with (Z.of_nat (String.length s)) by lia.
  replace (Z.min _ _) with 0 by lia.
  apply substring_none.
Qed.

(** X1. On the fallback path the range is always a single point whose
    line and column are neither [NaN] nor negative, whatever text follows
    [". Line "]: each is an integer that is not negative, or the positive
    infinity when the digits read are too many for a double. *)
Theorem fallback_point_not_negative
    (err : JsError) (lineCount : number) (sourceURI : string) (s : Server L) :
  getFileLocation err = None ->
  occurs ". Line " (fullMsg err) ->
  exists d l c,
    emits L err lineCount sourceURI s d /\
    range d = point l c /\
    notNegative l /\ notNegative c.
Proof.
  intros Hacc Hocc. apply lastIndexOf_present in Hocc.
  destruct (lastOccurrence_lastIndexOf _ _ Hocc) as (P & T & Hlast).
  exists (buildDiagnostic err lineCount), (zeroBased T), (zeroBased (columnText T)).
  split; [apply emits_buildDiagnostic|].
  unfold buildDiagnostic. rewrite (locate_fallback _ _ _ _ Hacc Hlast).
  cbn [curLine curColumn endLine endColumn range].
  split; [reflexivity|]. split; apply zeroBased_notNegative.
Qed.

(** X2. An error that has the location accessor never has its text
    parsed or cut: the message emitted is the full [name: message] even
    when the message contains [". Line "], and the range is that of the
    location returned (its coordinates 1-based and not above [2^53]), or
    the whole document when none is returned. *)
Theorem accessor_takes_precedence
    (err : JsError) (lineCount : number) (sourceURI : string) (s : Server L)
    (result : option FileLocation) :
  getFileLocation err = Some result ->
  match result with
  | Some location => coordinates location
  | None => True
  end ->
  exists d,
    emits L err lineCount sourceURI s d /\
    diag_message d = name err ++ ": " ++ message err /\
    range d =
      match result with
      | Some location =>
          {| range_start := {| pos_line := Num (line (loc_start location) - 1);
                               character := Num (column (loc_start location) - 1) |};
             range_end := {| pos_line := Num (line (loc_end location) - 1);
                             character := Num (column (loc_end location) - 1) |} |}
      | None => wholeDocument lineCount
      end.
Proof.
  intros Hacc Hcoord. exists (buildDiagnostic err lineCount).
  split; [apply emits_buildDiagnostic|].
  unfold buildDiagnostic. destruct result as [location|].
  - rewrite (locate_structured _ _ _ Hacc).
    destruct Hcoord as (H1 & H2 & H3 & H4).
    cbn [curLine curColumn endLine endColumn range finalMsg diag_message].
    rewrite !sub_coordinate by assumption. now split.
  - rewrite locate_default; [now split | now left].
Qed.

(** X3. The fallback path clamps what it reads: for a message
    [P ++ ". Line N column M" ++ R] with integers [N] and [M] not above
    [2^53], negative ones and 0 included, and a rest [R] that does not go
    on with a digit and contains neither [". Line "] nor [" column "], the
    range is the point [(max 0 (N-1), max 0 (M-1))]. *)
Theorem fallback_clamps_to_zero
    (err : JsError) (lineCount : number) (sourceURI : string) (s : Server L)
    (P R : string) (N M : Z) :
  getFileLocation err = None ->
  message err = P ++ ". Line " ++ signedDecimal N ++ " column " ++ signedDecimal M ++ R ->
  N <= 2 ^ 53 -> M <= 2 ^ 53 ->
  startsWithDigit R = false ->
  ~ occurs ". Line " R -> ~ occurs " column " R ->
  exists d,
    emits L err lineCount sourceURI s d /\
    range d = point (Num (Z.max 0 (N - 1))) (Num (Z.max 0 (M - 1))).
Proof.
  intros Hacc Hmsg HN HM Hdigit HRline HRcol.
  exists (buildDiagnostic err lineCount).
  split; [apply emits_buildDiagnostic|].
  assert (Hlast : lastOccurrence ". Line " (fullMsg err)
                    (name err ++ ": " ++ P)
                    (signedDecimal N ++ " column " ++ signedDecimal M ++ R)).
  { unfold fullMsg. rewrite Hmsg.
    replace (name err ++ ": " ++ P ++ ". Line " ++ signedDecimal N ++ " column "
             ++ signedDecimal M ++ R)
      with ((name err ++ ": " ++ P) ++ ". Line " ++ signedDecimal N ++ " column "
            ++ signedDecimal M ++ R)
      by now rewrite !append_assoc.
    now apply lastOccurrence_signed_line. }
  unfold buildDiagnostic. rewrite (locate_fallback _ _ _ _ Hacc Hlast).
  cbn [curLine curColumn endLine endColumn range].
  rewrite (columnText_last _ _ _ (lastOccurrence_signed_column R N M HRcol)).
  rewrite (zeroBased_signed N) by (assumption || reflexivity).
  rewrite (zeroBased_signed M) by assumption.
  reflexivity.
Qed.

(** X4. When the text [T] after the last [". Line "] has no [" column "],
    the column is read from offset 7 of [T]; so when [T] has no more than 7
    characters the column is 0, and the range is the point at the line
    read from [T]. *)
Theorem fallback_without_column
    (err : JsError) (lineCount : number) (sourceURI : string) (s : Server L)
    (P T : string) :
  getFileLocation err = None ->
  lastOccurrence ". Line " (fullMsg err) P T ->
  ~ occurs " column " T ->
  exists d,
    emits L err lineCount sourceURI s d /\
    range d = point (zeroBased T) (zeroBased (substr T 7)) /\
    (JS.length T <= 7 -> range d = point (zeroBased T) (Num 0)).
Proof.
  intros Hacc Hlast Hcol. exists (buildDiagnostic err lineCount).
  split; [apply emits_buildDiagnostic|].
  unfold buildDiagnostic. rewrite (locate_fallback _ _ _ _ Hacc Hlast).
  cbn [curLine curColumn endLine endColumn range].
  apply lastIndexOf_absent in Hcol. unfold columnText. rewrite Hcol.
  change (-1 + 8) with 7. split; [reflexivity|].
  intros Hlen. now rewrite (substr_beyond T 7 Hlen).
Qed.

End MoreTranslation.

(* ===================================================================== *)
(** ** The dispatcher and the handlers over any run of notifications *)
(* ===================================================================== *)

Section Serving.

Context (L : Library).

Lemma atMostOne_thrown (thrown : option JsError) (lineCount : number) (u : string) :
  atMostOne {| params_uri := u;
               diagnostics := match thrown with
                              | Some err => [buildDiagnostic err lineCount]
                              | None => []
                              end |}.
Proof. unfold atMostOne. destruct thrown; cbn; lia. Qed.

Ltac each_at_most_one :=
  repeat (apply Forall_cons;
          [ first [ apply atMostOne_thrown | unfold atMostOne; cbn; lia ] | ]);
  apply Forall_nil.

(** What one call of the dispatcher adds to the trace. *)
Lemma validateTextDocument_step (textDocument : TextDocument) (s : Server L) :
  exists s' new,
    validateTextDocument L textDocument s = (s', inr tt) /\
    trace s' = (trace s ++ new)%list /\
    (List.length (published new) <= 2)%nat /\
    Forall atMostOne (published new) /\
    (hasData (getText textDocument) = true -> (1 <= List.length (published new))%nat).
Proof.
  unfold validateTextDocument.
  destruct (hasData (getText textDocument)) eqn:Hdata.
  - destruct (String.eqb (languageId textDocument) "composer-acl").
    + destruct (createAclFile L (modelManager s) (uri textDocument) (getText textDocument))
        as [err | f0] eqn:E.
      * rewrite (validateNewAclModelFile_rejected L _ _ _ E).
        do 2 eexists. split; [reflexivity|]. cbn [trace].
        split; [reflexivity|]. cbn [published List.length].
        split; [lia|]. split; [|lia].
        each_at_most_one.
      * rewrite (validateNewAclModelFile_created L _ _ _ E). cbv zeta.
        destruct (setAclFile L (modelManager s) (aclManager s)
                    (set_lineCount f0 (Num (lineCount textDocument)))) as [tracked thrown].
        do 2 eexists. split; [reflexivity|]. cbn [trace].
        split; [reflexivity|]. cbn [published List.length].
        split; [lia|]. split; [|lia].
        each_at_most_one.
    + unfold bind at 1. rewrite validateCtoModelFile_run.
      destruct (addModelFile L (modelManager s) (getText textDocument)) as [mm thrown].
      unfold bind, aclManager_getAclFile. cbn [aclManager].
      destruct (aclManager s) as [aclFile|].
      * rewrite validateExistingAclModelFile_run. cbn [modelManager aclManager trace].
        do 2 eexists. split; [reflexivity|]. cbn [trace].
        split; [now rewrite <- app_assoc|]. cbn [app published List.length].
        split; [lia|]. split; [|lia].
        each_at_most_one.
      * unfold ret. do 2 eexists. split; [reflexivity|]. cbn [trace].
        split; [reflexivity|]. cbn [published List.length].
        split; [lia|]. split; [|lia].
        each_at_most_one.
  - unfold ret. exists s, []. split; [reflexivity|].
    split; [now rewrite app_nil_r|]. cbn. split; [lia|]. split; [constructor | discriminate].
Qed.

Lemma forEach_step (docs : list TextDocument) (s : Server L) :
  exists s' new,
    forEach L docs (validateTextDocument L) s = (s', inr tt) /\
    trace s' = (trace s ++ new)%list /\
    (List.length (published new) <= 2 * List.length docs)%nat /\
    Forall atMostOne (published new).
Proof.
  revert s; induction docs as [|d docs IH]; intros s.
  - exists s, []. cbn. split; [reflexivity|]. split; [now rewrite app_nil_r|].
    split; [lia | constructor].
  - destruct (validateTextDocument_step d s) as (s1 & new1 & E1 & T1 & N1 & A1 & _).
    destruct (IH s1) as (s2 & new2 & E2 & T2 & N2 & A2).
    exists s2, (new1 ++ new2)%list.
    cbn [forEach]. unfold bind. rewrite E1, E2.
    split; [reflexivity|]. split; [now rewrite T2, T1, app_assoc|].
    rewrite published_app, length_app. cbn [List.length].
    split; [lia | now apply Forall_app].
Qed.

Lemma handle_step (n : Notification) (p : Process L) :
  hasComposer n = true ->
  exists p' new,
    handle L n p = (p', inr tt) /\
    trace (server p') = (trace (server p) ++ new)%list /\
    (List.length (published new) <= 2 * submitted [n])%nat /\
    Forall atMostOne (published new).
Proof.
  destruct n as [document | [[[section|]]|] all]; cbn [handle submitted hasComposer composer];
    try discriminate; intros _.
  - unfold onDidChangeContent.
    destruct (validateTextDocument_step document (server p)) as (s1 & new & E & T & N & A & _).
    rewrite E. do 2 eexists. split; [reflexivity|]. cbn [server].
    split; [exact T|]. split; [lia | exact A].
  - unfold onDidChangeConfiguration. cbn [composer].
    destruct (forEach_step all (server p)) as (s1 & new & E & T & N & A).
    rewrite E. do 2 eexists. split; [reflexivity|]. cbn [server].
    split; [exact T|]. split; [lia | exact A].
Qed.

(** X5. The dispatcher never throws, whatever the document and whatever
    the library does; one call publishes at most twice, at least once for
    a document with text, never more than one diagnostic at a time, and
    only for the URI of the document or the identifier of the ACL file
    tracked when the call began. *)
Theorem dispatcher_never_throws (textDocument : TextDocument) (s : Server L) :
  exists s' new,
    validateTextDocument L textDocument s = (s', inr tt) /\
    trace s' = (trace s ++ new)%list /\
    (List.length (published new) <= 2)%nat /\
    Forall atMostOne (published new) /\
    (hasData (getText textDocument) = true -> (1 <= List.length (published new))%nat) /\
    Forall (fun p => params_uri p = uri textDocument \/
                     exists f, aclManager s = Some f /\ params_uri p = getIdentifier f)
           (published new).
Proof.
  destruct (validateTextDocument_step textDocument s) as (s' & new & E & T & N & A & D).
  exists s', new. repeat (split; [assumption|]).
  revert E T. clear. unfold validateTextDocument.
  destruct (hasData (getText textDocument)).
  - destruct (String.eqb (languageId textDocument) "composer-acl").
    + destruct (createAclFile L (modelManager s) (uri textDocument) (getText textDocument))
        as [err | f0] eqn:E.
      * rewrite (validateNewAclModelFile_rejected L _ _ _ E).
        intros [= <-] T. cbn [trace] in T. apply app_inv_head in T. subst new.
        cbn [published]. repeat constructor.
      * rewrite (validateNewAclModelFile_created L _ _ _ E). cbv zeta.
        destruct (setAclFile L (modelManager s) (aclManager s)
                    (set_lineCount f0 (Num (lineCount textDocument)))) as [tracked thrown].
        intros [= <-] T. cbn [trace] in T. apply app_inv_head in T. subst new.
        cbn [published]. repeat constructor.
    + unfold bind at 1. rewrite validateCtoModelFile_run.
      destruct (addModelFile L (modelManager s) (getText textDocument)) as [mm thrown].
      unfold bind, aclManager_getAclFile. cbn [aclManager].
      destruct (aclManager s) as [aclFile|].
      * rewrite validateExistingAclModelFile_run. cbn [modelManager aclManager trace].
        intros [= <-] T. cbn [trace] in T. rewrite <- app_assoc in T.
        apply app_inv_head in T. subst new. cbn [app published].
        apply Forall_cons; [now left|].
        apply Forall_cons; [right; now exists aclFile | constructor].
      * unfold ret. intros [= <-] T. cbn [trace] in T.
        apply app_inv_head in T. subst new.
        cbn [published]. repeat constructor.
  - unfold ret. intros [= <-] T.
    rewrite <- (app_nil_r (trace s)) in T at 1. apply app_inv_head in T. subst new.
    constructor.
Qed.

(** X6. Any run of content changes and of configuration changes that
    carry the [composer] section is handled to the end without a throw;
    it publishes at most twice per document submitted, and every
    publication holds at most one diagnostic. *)
Theorem serve_never_throws (ns : list Notification) (p : Process L) :
  forallb hasComposer ns = true ->
  exists p' new,
    serve L ns p = (p', inr tt) /\
    trace (server p') = (trace (server p) ++ new)%list /\
    (List.length (published new) <= 2 * submitted ns)%nat /\
    Forall atMostOne (published new).
Proof.
  revert p; induction ns as [|n ns IH]; intros p Hns.
  - exists p, []. cbn. split; [reflexivity|]. split; [now rewrite app_nil_r|].
    split; [lia | constructor].
  - cbn [forallb] in Hns. apply andb_true_iff in Hns as [Hn Hns].
    destruct (handle_step n p Hn) as (p1 & new1 & E1 & T1 & N1 & A1).
    destruct (IH p1 Hns) as (p2 & new2 & E2 & T2 & N2 & A2).
    exists p2, (new1 ++ new2)%list.
    cbn [serve]. rewrite E1, E2.
    split; [reflexivity|]. split; [now rewrite T2, T1, app_assoc|].
    rewrite published_app, length_app.
    assert (submitted (n :: ns) = submitted [n] + submitted ns)%nat as ->
      by (destruct n; cbn [submitted]; lia).
    split; [lia | now apply Forall_app].
Qed.


(** X8. A change of a permissions document never reaches the model
    manager: the server calls neither [addModelFile] nor [validate]. *)
Theorem acl_change_leaves_model (textDocument : TextDocument) (s : Server L) :
  languageId textDocument = "composer-acl" ->
  exists s' new,
    validateTextDocument L textDocument s = (s', inr tt) /\
    trace s' = (trace s ++ new)%list /\
    existsb touchesModel new = false.
Proof.
  intros Hlang. unfold validateTextDocument. rewrite Hlang, String.eqb_refl.
  destruct (hasData (getText textDocument)).
  - destruct (createAclFile L (modelManager s) (uri textDocument) (getText textDocument))
      as [err | f0] eqn:E.
    + rewrite (validateNewAclModelFile_rejected L _ _ _ E).
      do 2 eexists. split; [reflexivity|]. cbn [trace].
      now repeat split.
    + rewrite (validateNewAclModelFile_created L _ _ _ E). cbv zeta.
      destruct (setAclFile L (modelManager s) (aclManager s)
                  (set_lineCount f0 (Num (lineCount textDocument)))) as [tracked thrown].
      do 2 eexists. split; [reflexivity|]. cbn [trace].
      now repeat split.
  - unfold ret. exists s, []. split; [reflexivity|].
    split; [now rewrite app_nil_r | reflexivity].
Qed.

(** X9. The line count recorded on the ACL file is the one a later
    revalidation uses: after a permissions document was installed, a
    model change that makes [validate] throw an error without a location
    publishes, for the identifier of the ACL file, one diagnostic over the
    whole ACL document as it was when installed. *)
Theorem revalidation_uses_recorded_line_count
    (aclDocument modelDocument : TextDocument) (aclText modelText : string)
    (s : Server L) (f0 : File L) (err : JsError) :
  setAclFile_replaces L ->
  languageId aclDocument = "composer-acl" ->
  getText aclDocument = Some aclText -> aclText <> "" ->
  createAclFile L (modelManager s) (uri aclDocument) (Some aclText) = inr f0 ->
  snd (setAclFile L (modelManager s) (aclManager s)
         (set_lineCount f0 (Num (lineCount aclDocument)))) = None ->
  languageId modelDocument <> "composer-acl" ->
  getText modelDocument = Some modelText -> modelText <> "" ->
  validate L (fst (addModelFile L (modelManager s) (Some modelText)))
    (set_lineCount f0 (Num (lineCount aclDocument))) = Some err ->
  getFileLocation err = Some None ->
  exists s1 s2 p1 d,
    validateTextDocument L aclDocument s = (s1, inr tt) /\
    validateTextDocument L modelDocument s1 = (s2, inr tt) /\
    trace s2 =
      (trace s1 ++
       [CallAddModelFile (Some modelText);
        SendDiagnostics p1;
        CallValidate (set_lineCount f0 (Num (lineCount aclDocument)));
        SendDiagnostics {| params_uri := getIdentifier f0; diagnostics := [d] |}])%list /\
    range d = wholeDocument (Num (lineCount aclDocument)).
Proof.
  intros Hcontract Hlang Htxt Hdata Hcreate Hset Hlang' Htxt' Hdata' Hval Hloc.
  unfold validateTextDocument at 1.
  rewrite Htxt, (hasData_true _ Hdata), Hlang, String.eqb_refl.
  rewrite <- Htxt in Hcreate.
  rewrite (validateNewAclModelFile_created L _ _ _ Hcreate). cbv zeta.
  destruct (setAclFile L (modelManager s) (aclManager s)
              (set_lineCount f0 (Num (lineCount aclDocument))))
    as [tracked thrown] eqn:Hrun.
  cbn [snd] in Hset. subst thrown. apply Hcontract in Hrun. subst tracked.
  destruct (addModelFile L (modelManager s) (Some modelText)) as [mm thrown'] eqn:Hadd.
  cbn [fst] in Hval.
  eexists. eexists. eexists. exists (buildDiagnostic err (Num (lineCount aclDocument))).
  split; [reflexivity|].
  unfold validateTextDocument.
  rewrite Htxt', (hasData_true _ Hdata').
  apply String.eqb_neq in Hlang'. rewrite Hlang'.
  unfold bind at 1. rewrite validateCtoModelFile_run, Htxt'.
  cbn [modelManager aclManager trace]. rewrite Hadd.
  unfold bind, aclManager_getAclFile. cbn [aclManager].
  rewrite validateExistingAclModelFile_run. cbn [modelManager aclManager trace].
  rewrite Hval. cbn [getIdentifier acl_lineCount set_lineCount].
  split; [reflexivity|]. cbn [trace].
  split; [now rewrite <- !app_assoc|].
  unfold buildDiagnostic. rewrite locate_default; [reflexivity | now left].
Qed.

End Serving.

(* ===================================================================== *)
(** ** Code completion and the forced update *)
(* ===================================================================== *)

Section CompletionFacts.

Import Completion.

(** X10. Resolving a completion item changes nothing but its detail and
    documentation, resolving twice is resolving once, and an item whose
    data is none of 1, 2, 3, 4 is returned as it is. *)
Theorem resolve_only_describes (i : CompletionItem) :
  label (onCompletionResolve i) = label i /\
  kind (onCompletionResolve i) = kind i /\
  data (onCompletionResolve i) = data i /\
  onCompletionResolve (onCompletionResolve i) = onCompletionResolve i /\
  ((forall n, 1 <= n <= 4 -> data i <> Some (Num n)) -> onCompletionResolve i = i).
Proof.
  unfold onCompletionResolve.
  destruct (dataIs i 1) eqn:E1; [|destruct (dataIs i 2) eqn:E2;
    [|destruct (dataIs i 3) eqn:E3; [|destruct (dataIs i 4) eqn:E4]]].
  5: { rewrite E1, E2, E3, E4. now repeat split. }
  all: repeat (split; [reflexivity|]).
  all: split;
    [ unfold dataIs in *; cbn [data describe]; unfold dataIs;
      repeat match goal with H : _ = _ |- _ => rewrite H end; reflexivity
    | intros Hnone; exfalso; unfold dataIs in *;
      destruct (data i) as [[|z|negative]|]; try discriminate;
      match goal with
      | H : (z =? ?n) = true |- _ => apply Z.eqb_eq in H; subst z; apply (Hnone n); [lia | reflexivity]
      end ].
Qed.

(** X11. Every item the completion list offers is one the resolver
    knows: it resolves to the detail made of its own label followed by
    [" details"], with a documentation. *)
Theorem offered_items_resolve (i : CompletionItem) :
  In i onCompletion ->
  detail (onCompletionResolve i) = Some (label i ++ " details") /\
  exists doc, documentation (onCompletionResolve i) = Some doc.
Proof.
  cbn [onCompletion In].
  intros [<- | [<- | [<- | [<- | []]]]]; (split; [reflexivity | eexists; reflexivity]).
Qed.

End CompletionFacts.

Section ActivationFacts.

Import Activation.

Context {Params : Type}.

(** X12. When the active editor changes, the client forces a
    [textDocument/didChange] for the new editor's document exactly when
    the language of that document is one of the document selector; for
    any other language, and without an editor, it sends nothing. *)
Theorem forced_update_iff_selected (document : EditorDocument Params) :
  (In (doc_languageId document) documentSelector ->
   onDidChangeActiveTextEditor (Some document) =
     [{| method := "textDocument/didChange";
         params := asChangeTextDocumentParams document |}]) /\
  (~ In (doc_languageId document) documentSelector ->
   onDidChangeActiveTextEditor (Some document) = []) /\
  onDidChangeActiveTextEditor (@None (EditorDocument Params)) = [].
Proof.
  unfold onDidChangeActiveTextEditor, documentSelector. cbn [In].
  destruct (String.eqb_spec (doc_languageId document) "composer") as [E1|N1];
    destruct (String.eqb_spec (doc_languageId document) "composer-acl") as [E2|N2];
    destruct (String.eqb_spec (doc_languageId document) "composer-qry") as [E3|N3];
    cbn [negb andb]; repeat split; try reflexivity; intros H;
    try (exfalso; apply H; auto; fail);
    try (destruct H as [H | [H | [H | []]]]; congruence).
Qed.

End ActivationFacts.

(* ===================================================================== *)
(** ** More on the diagram flow *)
(* ===================================================================== *)

Section MoreDiagramFlow.

Import Client.

Context (w : Window).

Lemma handleGenerateUml_parts (docContent : string) (originatingFileName : option string) :
  handleGenerateUml w docContent originatingFileName =
  (fst (checkPreviewer w) ++ openAndEdit w docContent ++
   afterEdit w (snd (checkPreviewer w))
     (fst (resolveOrigin w originatingFileName))
     (snd (resolveOrigin w originatingFileName))
     (editApplied w))%list.
Proof.
  unfold handleGenerateUml.
  destruct (resolveOrigin w originatingFileName), (checkPreviewer w). reflexivity.
Qed.

Lemma snd_checkPreviewer :
  snd (checkPreviewer w) = autoShowDiagamSetting w && plantumlInstalled w.
Proof.
  unfold checkPreviewer.
  destruct (autoShowDiagamSetting w), (plantumlInstalled w),
    (previewAutoUpdate w || negb (String.eqb (previewFileType w) "svg")); reflexivity.
Qed.

Lemma in_checkPreviewer (e : Event) :
  In e (fst (checkPreviewer w)) ->
  autoShowDiagamSetting w = true /\
  ((plantumlInstalled w = false /\
    e = ShowErrorMessage
          "The 'jebbs.plantuml' extention must be installed and configured to view the UML diagram.")
   \/
   (plantumlInstalled w = true /\
    (previewAutoUpdate w = true \/ previewFileType w <> "svg") /\
    (e = ConfigUpdate "plantuml.previewAutoUpdate" (CBool false) \/
     e = ConfigUpdate "plantuml.previewFileType" (CString "svg")))).
Proof.
  unfold checkPreviewer.
  destruct (autoShowDiagamSetting w); [|intros []].
  destruct (plantumlInstalled w); cbn [negb].
  - destruct (previewAutoUpdate w); cbn [orb].
    + intros [<- | [<- | []]]; split; auto; right; auto.
    + destruct (String.eqb_spec (previewFileType w) "svg"); cbn [negb]; [intros []|].
      intros [<- | [<- | []]]; split; auto; right; auto.
  - intros [<- | []]. split; auto.
Qed.

Lemma in_openAndEdit (docContent : string) (e : Event) :
  In e (openAndEdit w docContent) ->
  e = WriteFileSync (fileName w) "" /\ existsSync w = false \/
  e = OpenTextDocument (umlDocUri w) \/
  e = ShowTextDocument (umlDocUri w) (Some ViewColumn_One) \/
  e = EditReplace (documentLineCount w - 1) (lastLineLength w) docContent.
Proof.
  unfold openAndEdit. rewrite in_app_iff.
  destruct (existsSync w); cbn [negb In]; intuition auto.
Qed.

Lemma in_closeOrCursorTop (e : Event) :
  In e (closeOrCursorTop w) ->
  (e = ExecuteCommand "workbench.action.closeActiveEditor" /\
   keepSourceFileOpen w = false /\
   exists active, activeTextEditorAfter w = Some active /\
                  editor_uri active = umlDocUri w) \/
  (exists msg, e = ConsoleLog msg) \/
  (e = ExecuteCommand "cursorTop" /\ keepSourceFileOpen w = true).
Proof.
  unfold closeOrCursorTop.
  destruct (keepSourceFileOpen w); cbn [negb].
  - intros [<- | []]. auto.
  - destruct (activeTextEditorAfter w) as [active|]; [|intros []].
    destruct (String.eqb_spec (editor_uri active) (umlDocUri w)).
    + intros [<- | []]. left. repeat split. now exists active.
    + intros [<- | []]. right. left. eexists. reflexivity.
Qed.

Lemma sameName_eq (e : string) (o : option string) : sameName e o = true -> o = Some e.
Proof.
  destruct o as [n|]; cbn [sameName]; [|discriminate].
  intros H. apply String.eqb_eq in H. now subst.
Qed.

(** The refocus shows at most one document, the originating one. *)
Lemma refocus_shape (a : bool) (o : option string) (t : option Z) :
  refocus w a o t = [] \/
  (a = true /\ exists u col, refocus w a o t = [ShowTextDocument u col] /\ o = Some u).
Proof.
  unfold refocus. destruct a; [|now left].
  destruct (find _ (visibleTextEditors w)) as [editor|] eqn:F.
  - right. split; [reflexivity|]. apply find_some in F as [_ F].
    exists (editor_uri editor), (viewColumn editor). split; [reflexivity|].
    now apply sameName_eq.
  - destruct (find _ (textDocuments w)) as [editor|] eqn:F'; [|now left].
    right. split; [reflexivity|]. apply find_some in F' as [_ F'].
    exists editor, t. split; [reflexivity|]. now apply sameName_eq.
Qed.

Lemma in_refocus (a : bool) (o : option string) (t : option Z) (e : Event) :
  In e (refocus w a o t) ->
  a = true /\ exists u col, e = ShowTextDocument u col /\ o = Some u.
Proof.
  destruct (refocus_shape a o t) as [-> | (Ha & u & col & -> & Ho)]; [intros []|].
  intros [<- | []]. split; [assumption|]. now exists u, col.
Qed.

(** Where an event that follows the edit comes from. *)
Lemma in_afterEdit (a : bool) (o : option string) (t : option Z) (e : Event) :
  In e (afterEdit w a o t (editApplied w)) ->
  (exists msg, e = ConsoleLog msg) \/
  (editApplied w = true /\
   (e = Save \/
    (a = true /\ e = ExecuteCommand "plantuml.preview") \/
    (a = true /\ exists ex, previewThrows w = Some ex /\ e = ShowErrorMessage ex) \/
    ((a = true -> previewThrows w = None) /\
     (In e (closeOrCursorTop w) \/ In e (refocus w a o t))))).
Proof.
  unfold afterEdit. destruct (editApplied w); cbn [negb].
  - rewrite !in_app_iff. intros [H | [H | H]].
    + destruct H as [<- | []]. right. auto.
    + destruct (saved w); cbn [negb] in H; [destruct H|].
      destruct H as [<- | []]. left. eexists. reflexivity.
    + destruct a.
      * destruct (previewThrows w) as [ex|] eqn:P.
        -- destruct H as [<- | [<- | [<- | []]]].
           ++ right. auto.
           ++ left. eexists. reflexivity.
           ++ right. split; [reflexivity|]. right. right. left.
              split; [reflexivity|]. now exists ex.
        -- rewrite !in_app_iff in H. destruct H as [[<- | []] | H].
           ++ right. auto.
           ++ right. split; [reflexivity|]. right. right. right. auto.
      * rewrite in_app_iff in H. right. split; [reflexivity|].
        right. right. right. split; [discriminate | assumption].
  - intros [<- | []]. left. eexists. reflexivity.
Qed.

(** X13. Without the previewer extension the flow shows its error
    message first and then goes on without the preview: it creates the
    temporary file if absent, opens it, shows it and replaces its
    content, and saves it when the edit was applied; after the edit the
    preview command is not executed, no setting of the previewer is
    written, and no document is shown. *)
Theorem previewer_missing (docContent : string) (originatingFileName : option string) :
  autoShowDiagamSetting w = true ->
  plantumlInstalled w = false ->
  exists rest,
    handleGenerateUml w docContent originatingFileName =
    (ShowErrorMessage
       "The 'jebbs.plantuml' extention must be installed and configured to view the UML diagram."
     :: (if negb (existsSync w) then [WriteFileSync (fileName w) ""] else [])
     ++ [OpenTextDocument (umlDocUri w);
         ShowTextDocument (umlDocUri w) (Some ViewColumn_One);
         EditReplace (documentLineCount w - 1) (lastLineLength w) docContent]
     ++ rest)%list /\
    (editApplied w = true -> exists rest', rest = Save :: rest') /\
    ~ In (ExecuteCommand "plantuml.preview") rest /\
    (forall key value, ~ In (ConfigUpdate key value) rest) /\
    (forall u col, ~ In (ShowTextDocument u col) rest).
Proof.
  intros Hauto Hinst.
  rewrite handleGenerateUml_parts, snd_checkPreviewer, Hauto, Hinst. cbn [andb].
  unfold checkPreviewer at 1. rewrite Hauto, Hinst. cbn [negb fst app].
  exists (afterEdit w false (fst (resolveOrigin w originatingFileName))
            (snd (resolveOrigin w originatingFileName)) (editApplied w)).
  split; [unfold openAndEdit; now rewrite <- !app_assoc|].
  split.
  { intros Hedit. unfold afterEdit. rewrite Hedit. cbn [negb app]. eexists. reflexivity. }
  assert (Hin : forall e,
            In e (afterEdit w false (fst (resolveOrigin w originatingFileName))
                    (snd (resolveOrigin w originatingFileName)) (editApplied w)) ->
            e <> ExecuteCommand "plantuml.preview" /\
            (forall key value, e <> ConfigUpdate key value) /\
            (forall u col, e <> ShowTextDocument u col)).
  { intros e H.
    apply in_afterEdit in H as [[msg ->] | [_ [-> | [[F _] | [[F _] | [_ [H | H]]]]]]];
      try discriminate F; try (repeat split; discriminate).
    - apply in_closeOrCursorTop in H as [[-> _] | [[msg ->] | [-> _]]];
        repeat split; discriminate.
    - apply in_refocus in H as [F _]. discriminate F. }
  split; [|split].
  - intros H. now apply Hin in H as [H _].
  - intros key value H. apply Hin in H as (_ & H & _). now apply (H key value).
  - intros u col H. apply Hin in H as (_ & _ & H). now apply (H u col).
Qed.

(** X14. The flow writes to the settings of the previewer only what it
    needs: the two writes are [previewAutoUpdate := false] and
    [previewFileType := "svg"], and they happen only when the preview is
    wanted, the extension is installed, and auto update is on or the
    file type is not yet ["svg"]. *)
Theorem settings_written_only_when_needed
    (docContent : string) (originatingFileName : option string)
    (key : string) (value : ConfigValue) :
  In (ConfigUpdate key value) (handleGenerateUml w docContent originatingFileName) ->
  autoShowDiagamSetting w = true /\
  plantumlInstalled w = true /\
  (previewAutoUpdate w = true \/ previewFileType w <> "svg") /\
  ((key = "plantuml.previewAutoUpdate" /\ value = CBool false) \/
   (key = "plantuml.previewFileType" /\ value = CString "svg")).
Proof.
  rewrite handleGenerateUml_parts, !in_app_iff. intros [H | [H | H]].
  - apply in_checkPreviewer in H as [Hauto [[_ H] | (Hinst & Hneed & H)]];
      [discriminate H|].
    repeat (split; [assumption|]).
    destruct H as [[= -> ->] | [= -> ->]]; auto.
  - apply in_openAndEdit in H as [[H _] | [H | [H | H]]]; discriminate H.
  - apply in_afterEdit in H as [[msg H] | [_ [H | [[_ H] | [[_ (ex & _ & H)] | [_ [H | H]]]]]]];
      try discriminate H.
    + apply in_closeOrCursorTop in H as [[H _] | [[msg H] | [H _]]]; discriminate H.
    + apply in_refocus in H as [_ (u & col & H & _)]. discriminate H.
Qed.

(** X15. When the preview command throws, the flow ends there: the
    exception is logged and shown, and neither the temporary editor is
    closed, nor the cursor moved, nor any document refocused. *)
Theorem preview_exception_ends_flow
    (docContent : string) (originatingFileName : option string) (ex : string) :
  autoShowDiagamSetting w = true ->
  plantumlInstalled w = true ->
  editApplied w = true ->
  previewThrows w = Some ex ->
  (exists before,
     handleGenerateUml w docContent originatingFileName =
     (before ++ [ExecuteCommand "plantuml.preview";
                 ConsoleLog ("CLIENT error: " ++ ex);
                 ShowErrorMessage ex])%list) /\
  ~ In (ExecuteCommand "workbench.action.closeActiveEditor")
       (handleGenerateUml w docContent originatingFileName) /\
  ~ In (ExecuteCommand "cursorTop")
       (handleGenerateUml w docContent originatingFileName) /\
  filter isLaterStep (handleGenerateUml w docContent originatingFileName) =
    [ShowTextDocument (umlDocUri w) (Some ViewColumn_One);
     Save;
     ExecuteCommand "plantuml.preview"].
Proof.
  intros Hauto Hinst Hedit Hthrow.
  rewrite handleGenerateUml_parts, snd_checkPreviewer, Hauto, Hinst. cbn [andb].
  unfold afterEdit. rewrite Hedit, Hthrow. cbn [negb].
  split; [|split; [|split]].
  - exists (fst (checkPreviewer w) ++ openAndEdit w docContent ++ [Save] ++
            (if negb (saved w)
             then [ConsoleLog ("Client could not save doc: " ++ umlDocUri w)]
             else []))%list.
    now rewrite <- !app_assoc.
  - rewrite !in_app_iff. intros [H | [H | [H | [H | H]]]].
    + apply in_checkPreviewer in H as [_ [[_ H] | (_ & _ & [H | H])]]; discriminate H.
    + apply in_openAndEdit in H as [[H _] | [H | [H | H]]]; discriminate H.
    + destruct H as [H | []]. discriminate H.
    + destruct (saved w); cbn [negb] in H; [destruct H|]. destruct H as [H | []]. discriminate H.
    + destruct H as [H | [H | [H | []]]]; discriminate H.
  - rewrite !in_app_iff. intros [H | [H | [H | [H | H]]]].
    + apply in_checkPreviewer in H as [_ [[_ H] | (_ & _ & [H | H])]]; discriminate H.
    + apply in_openAndEdit in H as [[H _] | [H | [H | H]]]; discriminate H.
    + destruct H as [H | []]. discriminate H.
    + destruct (saved w); cbn [negb] in H; [destruct H|]. destruct H as [H | []]. discriminate H.
    + destruct H as [H | [H | [H | []]]]; discriminate H.
  - rewrite !filter_app, checkPreviewer_quiet. unfold openAndEdit.
    rewrite filter_app.
    destruct (existsSync w), (saved w); reflexivity.
Qed.


(** X17. The flow issues the command that closes the active editor only
    when the edit was applied, it is told not to keep the temporary file
    open, and the active editor it reads just before is the one of the
    temporary file. *)
Theorem closes_only_temporary_editor
    (docContent : string) (originatingFileName : option string) :
  In (ExecuteCommand "workbench.action.closeActiveEditor")
     (handleGenerateUml w docContent originatingFileName) ->
  keepSourceFileOpen w = false /\
  editApplied w = true /\
  exists active,
    activeTextEditorAfter w = Some active /\
    editor_uri active = umlDocUri w.
Proof.
  rewrite handleGenerateUml_parts, !in_app_iff. intros [H | [H | H]].
  - apply in_checkPreviewer in H as [_ [[_ H] | (_ & _ & [H | H])]]; discriminate H.
  - apply in_openAndEdit in H as [[H _] | [H | [H | H]]]; discriminate H.
  - apply in_afterEdit in H as [[msg H] | [Hedit [H | [[_ H] | [[_ (ex & _ & H)] | [_ [H | H]]]]]]];
      try discriminate H.
    + apply in_closeOrCursorTop in H as [(_ & Hkeep & Hactive) | [[msg H] | [H _]]];
        try discriminate H. auto.
    + apply in_refocus in H as [_ (u & col & H & _)]. discriminate H.
Qed.

(** X18. The flow shows only two documents: the temporary one, and,
    after a preview that did not throw, the originating one, which is the
    name passed in or, when none was passed, the active editor's. *)
Theorem shows_only_temporary_and_origin
    (docContent : string) (originatingFileName : option string)
    (u : string) (col : option Z) :
  In (ShowTextDocument u col) (handleGenerateUml w docContent originatingFileName) ->
  (u = umlDocUri w /\ col = Some ViewColumn_One) \/
  (fst (resolveOrigin w originatingFileName) = Some u /\
   autoShowDiagamSetting w = true /\
   plantumlInstalled w = true /\
   editApplied w = true /\
   previewThrows w = None /\
   (noName originatingFileName = false -> originatingFileName = Some u)).
Proof.
  rewrite handleGenerateUml_parts, !in_app_iff. intros [H | [H | H]].
  - apply in_checkPreviewer in H as [_ [[_ H] | (_ & _ & [H | H])]]; discriminate H.
  - apply in_openAndEdit in H as [[H _] | [H | [H | H]]]; try discriminate H.
    injection H as -> ->. now left.
  - apply in_afterEdit in H as [[msg H] | [Hedit [H | [[_ H] | [[_ (ex & _ & H)] | [Hp [H | H]]]]]]];
      try discriminate H.
    + apply in_closeOrCursorTop in H as [[H _] | [[msg H] | [H _]]]; discriminate H.
    + apply in_refocus in H as [Ha (u' & col' & [= -> ->] & Ho)].
      right. rewrite snd_checkPreviewer in Ha, Hp.
      apply andb_true_iff in Ha as [Hauto Hinst].
      rewrite Hauto, Hinst in Hp.
      repeat (split; [auto|]).
      intros Hname. revert Ho. unfold resolveOrigin.
      destruct (activeTextEditor w); rewrite ?Hname; cbn [fst]; auto.
Qed.


End MoreDiagramFlow.

(* ===================================================================== *)
(** ** The further theorems at concrete inputs *)
(* ===================================================================== *)

Import MoreSamples.

Ltac found := cbn; repeat (try (left; reflexivity); right).

(** X1 on [fooError]. *)
Lemma fallback_point_not_negative_witness :
  exists d l c,
    emits Toy.library fooError (Num 20) modelUri Toy.initial d /\
    range d = point l c /\
    notNegative l /\ notNegative c.
Proof.
  apply (fallback_point_not_negative Toy.library fooError (Num 20) modelUri Toy.initial).
  - reflexivity.
  - exists "Error: Foo error", "5 column 3". reflexivity.
Defined.

(** A line of 401 digits reads as the positive infinity, which the sanity
    check lets through; a line just above [2^53] reads as [2^53]. *)
Example lines_beyond_doubles :
  range (buildDiagnostic tooLong (Num 20)) = point (Infinity false) (Num 0) /\
  range (buildDiagnostic rounded (Num 20)) = point (Num (2 ^ 53 - 1)) (Num 0).
Proof. split; vm_compute; reflexivity. Qed.

(** X2 on [silentAccessor]: the place in the text is not used. *)
Lemma accessor_takes_precedence_witness :
  exists d,
    emits Toy.library silentAccessor (Num 20) modelUri Toy.initial d /\
    diag_message d = "ParseException: Unexpected token. Line 5 column 3" /\
    range d = wholeDocument (Num 20).
Proof.
  apply (accessor_takes_precedence Toy.library silentAccessor (Num 20) modelUri
           Toy.initial None).
  - reflexivity.
  - exact I.
Defined.

(** X3 on [lineZero]: line 0 and column -4 give the point (0,0). *)
Lemma fallback_clamps_to_zero_witness :
  exists d,
    emits Toy.library lineZero (Num 20) modelUri Toy.initial d /\
    range d = point (Num 0) (Num 0).
Proof.
  apply (fallback_clamps_to_zero Toy.library lineZero (Num 20) modelUri Toy.initial
           "Odd" "" 0 (-4)).
  - reflexivity.
  - reflexivity.
  - now vm_compute.
  - now vm_compute.
  - reflexivity.
  - apply absent_by_search; reflexivity.
  - apply absent_by_search; reflexivity.
Defined.

(** X4 on [lineOnly]: line 12 without a column gives the point (11,0). *)
Lemma fallback_without_column_witness :
  exists d,
    emits Toy.library lineOnly (Num 20) modelUri Toy.initial d /\
    range d = point (Num 11) (Num 0) /\
    (JS.length "12" <= 7 -> range d = point (Num 11) (Num 0)).
Proof.
  apply (fallback_without_column Toy.library lineOnly (Num 20) modelUri Toy.initial
           "Error: Bad" "12").
  - reflexivity.
  - apply last_by_search; reflexivity.
  - apply absent_by_search; reflexivity.
Defined.

(** X6 on a content change followed by a configuration change that
    carries the section. *)
Lemma serve_never_throws_witness :
  exists p' new,
    serve Toy.library
      [DidChangeContent model; DidChangeConfiguration (withProblems None) [model; goodAcl]]
      {| server := Toy.initial; maxNumberOfProblems := None |} = (p', inr tt) /\
    trace (server p') = (trace Toy.initial ++ new)%list /\
    (List.length (published new) <= 2 * 3)%nat /\
    Forall atMostOne (published new).
Proof.
  apply (serve_never_throws Toy.library
           [DidChangeContent model; DidChangeConfiguration (withProblems None) [model; goodAcl]]
           {| server := Toy.initial; maxNumberOfProblems := None |}).
  reflexivity.
Defined.


(** X8 on [goodAcl]. *)
Lemma acl_change_leaves_model_witness :
  exists s' new,
    validateTextDocument Toy.library goodAcl tracking = (s', inr tt) /\
    trace s' = (trace tracking ++ new)%list /\
    existsb touchesModel new = false.
Proof.
  apply (acl_change_leaves_model Toy.library goodAcl tracking).
  reflexivity.
Defined.

Lemma picky_setAclFile_replaces : setAclFile_replaces Picky.library.
Proof.
  intros mm old f tracked. cbn [setAclFile Picky.library]. unfold Picky.setAcl.
  destruct (Picky.validateAcl mm f); [discriminate|]. now intros [= <-].
Qed.

(** X9 with the library whose rules depend on the model: [goodAcl], 12
    lines long, is installed; then [brokenModel], 3 lines long, breaks
    it, and the diagnostic for the ACL file covers its 12 lines. *)
Lemma revalidation_uses_recorded_line_count_witness :
  exists s1 s2 p1 d,
    validateTextDocument Picky.library goodAcl Picky.initial = (s1, inr tt) /\
    validateTextDocument Picky.library brokenModel s1 = (s2, inr tt) /\
    trace s2 =
      (trace s1 ++
       [CallAddModelFile (Some "namespace org.broken");
        SendDiagnostics p1;
        @CallValidate Picky.library newAcl;
        SendDiagnostics {| params_uri := aclUri; diagnostics := [d] |}])%list /\
    range d = wholeDocument (Num 12).
Proof.
  apply (revalidation_uses_recorded_line_count Picky.library goodAcl brokenModel
           "rule Everyone { }" "namespace org.broken" Picky.initial freshAcl
           Picky.brokenRule).
  - exact picky_setAclFile_replaces.
  - reflexivity.
  - reflexivity.
  - discriminate.
  - reflexivity.
  - reflexivity.
  - discriminate.
  - reflexivity.
  - discriminate.
  - reflexivity.
  - reflexivity.
Defined.

(** X11 on the first item offered. *)
Lemma offered_items_resolve_witness :
  Completion.detail (Completion.onCompletionResolve (Completion.item "asset" 1))
    = Some "asset details" /\
  exists doc,
    Completion.documentation (Completion.onCompletionResolve (Completion.item "asset" 1))
    = Some doc.
Proof.
  apply (offered_items_resolve (Completion.item "asset" 1)).
  left. reflexivity.
Defined.

(** X13 on [noPreviewer]. *)
Lemma previewer_missing_witness :
  exists rest,
    Client.handleGenerateUml noPreviewer "@startuml" None =
    (Client.ShowErrorMessage
       "The 'jebbs.plantuml' extention must be installed and configured to view the UML diagram."
     :: (if negb (Client.existsSync noPreviewer)
         then [Client.WriteFileSync "/tmp/composer.puml" ""] else [])
     ++ [Client.OpenTextDocument "file:///tmp/composer.puml";
         Client.ShowTextDocument "file:///tmp/composer.puml" (Some 1);
         Client.EditReplace 3 7 "@startuml"]
     ++ rest)%list /\
    (Client.editApplied noPreviewer = true -> exists rest', rest = Client.Save :: rest') /\
    ~ In (Client.ExecuteCommand "plantuml.preview") rest /\
    (forall key value, ~ In (Client.ConfigUpdate key value) rest) /\
    (forall u col, ~ In (Client.ShowTextDocument u col) rest).
Proof.
  apply (previewer_missing noPreviewer "@startuml" None); reflexivity.
Defined.

(** The whole run of [noPreviewer]: after the message, the file is
    opened, shown, edited and saved, and the temporary editor closed. *)
Example noPreviewer_run :
  Client.handleGenerateUml noPreviewer "@startuml" None =
  [Client.ShowErrorMessage
     "The 'jebbs.plantuml' extention must be installed and configured to view the UML diagram.";
   Client.OpenTextDocument "file:///tmp/composer.puml";
   Client.ShowTextDocument "file:///tmp/composer.puml" (Some 1);
   Client.EditReplace 3 7 "@startuml";
   Client.Save;
   Client.ExecuteCommand "workbench.action.closeActiveEditor"].
Proof. reflexivity. Qed.

(** X14 on [editFails], where auto update is on and the file type is
    ["png"]. *)
Lemma settings_written_only_when_needed_witness :
  Client.autoShowDiagamSetting editFails = true /\
  Client.plantumlInstalled editFails = true /\
  (Client.previewAutoUpdate editFails = true \/ Client.previewFileType editFails <> "svg") /\
  (("plantuml.previewFileType" = "plantuml.previewAutoUpdate" /\
    Client.CString "svg" = Client.CBool false) \/
   ("plantuml.previewFileType" = "plantuml.previewFileType" /\
    Client.CString "svg" = Client.CString "svg")).
Proof.
  apply (settings_written_only_when_needed editFails "@startuml" (Some modelUri)
           "plantuml.previewFileType" (Client.CString "svg")).
  found.
Defined.

(** X15 on [unlucky]. *)
Lemma preview_exception_ends_flow_witness :
  (exists before,
     Client.handleGenerateUml unlucky "@startuml" None =
     (before ++ [Client.ExecuteCommand "plantuml.preview";
                 Client.ConsoleLog "CLIENT error: Error: java not found";
                 Client.ShowErrorMessage "Error: java not found"])%list) /\
  ~ In (Client.ExecuteCommand "workbench.action.closeActiveEditor")
       (Client.handleGenerateUml unlucky "@startuml" None) /\
  ~ In (Client.ExecuteCommand "cursorTop")
       (Client.handleGenerateUml unlucky "@startuml" None) /\
  filter Client.isLaterStep (Client.handleGenerateUml unlucky "@startuml" None) =
    [Client.ShowTextDocument "file:///tmp/composer.puml" (Some 1);
     Client.Save;
     Client.ExecuteCommand "plantuml.preview"].
Proof.
  apply (preview_exception_ends_flow unlucky "@startuml" None "Error: java not found");
    reflexivity.
Defined.


(** X17 on [shortcut], where the temporary editor is the active one. *)
Lemma closes_only_temporary_editor_witness :
  Client.keepSourceFileOpen shortcut = false /\
  Client.editApplied shortcut = true /\
  exists active,
    Client.activeTextEditorAfter shortcut = Some active /\
    Client.editor_uri active = "file:///tmp/composer.puml".
Proof.
  apply (closes_only_temporary_editor shortcut "@startuml" None).
  found.
Defined.

(** X18 on [shortcut]: the model is shown again. *)
Lemma shows_only_temporary_and_origin_witness :
  ("file:///models/org.acme.cto" = "file:///tmp/composer.puml" /\ Some 2 = Some 1) \/
  (fst (Client.resolveOrigin shortcut None) = Some "file:///models/org.acme.cto" /\
   Client.autoShowDiagamSetting shortcut = true /\
   Client.plantumlInstalled shortcut = true /\
   Client.editApplied shortcut = true /\
   Client.previewThrows shortcut = None /\
   (Client.noName None = false -> None = Some "file:///models/org.acme.cto")).
Proof.
  apply (shows_only_temporary_and_origin shortcut "@startuml" None
           "file:///models/org.acme.cto" (Some 2)).
  found.
Defined.


(** The whole run of [shortcut]: open, show, edit, save, preview, close the
    temporary editor, show the model again in its column. *)
Example shortcut_run :
  Client.handleGenerateUml shortcut "@startuml" None =
  [Client.OpenTextDocument "file:///tmp/composer.puml";
   Client.ShowTextDocument "file:///tmp/composer.puml" (Some 1);
   Client.EditReplace 3 7 "@startuml";
   Client.Save;
   Client.ExecuteCommand "plantuml.preview";
   Client.ExecuteCommand "workbench.action.closeActiveEditor";
   Client.ShowTextDocument "file:///models/org.acme.cto" (Some 2)].
Proof. reflexivity. Qed.

(** A configuration change with the setting 0 over two open documents:
    the default 10 is taken, and both documents are validated in order. *)
Example configuration_run :
  onDidChangeConfiguration Toy.library (withProblems (Some (Num 0))) [model; goodAcl]
    {| server := Toy.initial; maxNumberOfProblems := None |} =
  ({| server :=
        Build_Server Toy.library ["namespace org.acme"] (Some newAcl)
          [CallAddModelFile (Some "namespace org.acme");
           SendDiagnostics {| params_uri := modelUri; diagnostics := [] |};
           CallCreateAclFile aclUri (Some "rule Everyone { }");
           CallSetAclFile newAcl;
           SendDiagnostics {| params_uri := aclUri; diagnostics := [] |}];
      maxNumberOfProblems := Some (Num 10) |},
   inr tt).
Proof. reflexivity. Qed.

(** Rounding at the first integers that are not doubles, on a number of 30
    digits, and around the largest double. *)
Example rounding_samples :
  roundInteger (2 ^ 53 + 1) = Num (2 ^ 53) /\
  roundInteger (2 ^ 53 + 3) = Num (2 ^ 53 + 4) /\
  roundInteger (- (2 ^ 53 + 1)) = Num (- 2 ^ 53) /\
  parseInt "123456789012345678901234567890" = Num 123456789012345677877719597056 /\
  roundInteger (2 ^ 1024 - 2 ^ 970 - 1) = MAX_VALUE /\
  roundInteger (2 ^ 1024 - 2 ^ 970) = Infinity false /\
  sub (Num (2 ^ 53 + 2)) (Num 1) = Num (2 ^ 53).
Proof. repeat split; vm_compute; reflexivity. Qed.
